(** * LokiFormatter: a shallow embedding of [didit_aml/log/__init__.py]

    The module defines one class, [LokiFormatter], a [logging.Formatter]
    that turns a [LogRecord] into one line of JSON.  The embedding keeps
    the shape of the Python code:

    - Python objects that are mutated or shared (the record's [__dict__],
      the [extra] dict, lists, tuples, instances) live in a heap and are
      referred to by location, so that "mutates its argument" and
      "returns a fresh dict" are statements about locations;
    - every method is a function from a heap to either a raised exception
      or a new heap with a return value;
    - the overridable pieces of the host ([record.getMessage],
      [Formatter.formatException], [json_lib.dumps]) and the overridable
      hook [mutate_json_record] are parameters of [format]; a model of
      CPython's own versions of the host pieces is given further down to
      run the formatter on concrete records. *)

From Stdlib Require Import ZArith Lia Bool Ascii String DecimalString.
From stdpp Require Import base list strings.

Local Open Scope string_scope.
Local Open Scope list_scope.
Set Warnings "-register-all".
Set Default Proof Using "Type".

(** ** Text helpers *)

(** The double-quote character and a text between double quotes. *)
Definition dquote : string := String (ascii_of_nat 34) EmptyString.
Definition squote : string := String (ascii_of_nat 39) EmptyString.
Definition newline : string := String (ascii_of_nat 10) EmptyString.

Definition quoted (s : string) : string := dquote +:+ s +:+ dquote.

Fixpoint string_mem (c : ascii) (s : string) : bool :=
  match s with
  | EmptyString => false
  | String d s' => Ascii.eqb c d || string_mem c s'
  end.

Fixpoint join (sep : string) (l : list string) : string :=
  match l with
  | [] => ""
  | [x] => x
  | x :: rest => x +:+ sep +:+ join sep rest
  end.

Definition nat_to_dec (n : nat) : string := NilZero.string_of_uint (Nat.to_uint n).

(** [str(int)] *)
Definition Z_to_dec (z : Z) : string :=
  if (z <? 0)%Z then "-" +:+ nat_to_dec (Z.to_nat (- z)) else nat_to_dec (Z.to_nat z).

(** ["%0<w>d" % n] for a non-negative [n]. *)
Fixpoint zeros (n : nat) : string :=
  match n with O => "" | S k => "0" +:+ zeros k end.

Definition pad0 (w : nat) (n : Z) : string :=
  let s := Z_to_dec n in zeros (w - String.length s) +:+ s.

(** ** Python values and the heap *)

(** Locations are indices into the heap. *)
Abbreviation loc := nat.

(** [datetime.datetime]: the civil fields and, for an aware value, the UTC
    offset in whole minutes. *)
Record datetime := mk_datetime {
  year : Z; month : Z; day : Z;
  hour : Z; minute : Z; second : Z; microsecond : Z;
  utcoffset : option Z
}.

Inductive pyval :=
| PNone
| PBool (b : bool)
| PInt (z : Z)
| PFloat (repr : string)
    (* a [float], carried as the text [repr] gives for it *)
| PStr (s : string)
| PDatetime (d : datetime)
| PExcInfo (tb : list string) (etype emsg : string)
    (* the triple of [sys.exc_info()]: frames of the traceback, the
       exception's class name, [str] of the exception *)
| PRef (l : loc).

Abbreviation pydict := (list (string * pyval)).

Inductive hobj :=
| HDict (d : pydict)
| HList (l : list pyval)
| HTuple (l : list pyval)
| HInst (cls : string) (attrs : option loc) (text : string).
    (* an instance of class [cls]; [attrs] is where its [__dict__] lives,
       if it has one; [text] is what [str] returns for it *)

Abbreviation heap := (list hobj).

Definition alloc (h : heap) (o : hobj) : heap * loc := (h ++ [o], List.length h).

Definition get_dict (h : heap) (l : loc) : option pydict :=
  match h !! l with
  | Some (HDict d) => Some d
  | _ => None
  end.

(** ** Dict operations, in insertion order *)

Fixpoint dict_get (d : pydict) (k : string) : option pyval :=
  match d with
  | [] => None
  | (k', v) :: rest => if String.eqb k k' then Some v else dict_get rest k
  end.

(** [d[k] = v]: a key that is present keeps its place, a new key goes last. *)
Fixpoint dict_set (d : pydict) (k : string) (v : pyval) : pydict :=
  match d with
  | [] => [(k, v)]
  | (k', v') :: rest =>
      if String.eqb k k' then (k', v) :: rest else (k', v') :: dict_set rest k v
  end.

Definition keys (d : pydict) : list string := map fst d.

(** ** Exceptions *)

Inductive exn_class :=
| TypeError | ValueError | OverflowError
| AttributeError | KeyError | RecursionError
| OtherException (name : string)
| BaseExceptionOnly (name : string).
    (* a class that derives from [BaseException] and not from [Exception],
       such as [KeyboardInterrupt] or [SystemExit] *)

(** A raised exception: its class, the text [str(e)] returns, and, for an
    exception whose [__str__] itself raises, the class and text of what
    it raises ([exn_str] is then not used). *)
Record exn := Exn {
  exn_cls : exn_class;
  exn_str : string;
  exn_str_raises : option (exn_class * string)
}.

(** An exception whose [__str__] returns [text]. *)
Definition mk_exn (cls : exn_class) (text : string) : exn := Exn cls text None.

Inductive result (A : Type) :=
| Ok (a : A)
| Raise (e : exn).
Arguments Ok {A} a.
Arguments Raise {A} e.

Definition bind {A B} (m : result A) (f : A -> result B) : result B :=
  match m with
  | Ok a => f a
  | Raise e => Raise e
  end.

Notation "x <- m ;; k" := (bind m (fun x => k))
  (at level 100, m at next level, right associativity).

(** [isinstance(e, Exception)] *)
Definition is_exception (c : exn_class) : bool :=
  match c with
  | BaseExceptionOnly _ => false
  | _ => true
  end.

(** [except (TypeError, ValueError, OverflowError)] *)
Definition is_encode_error (c : exn_class) : bool :=
  match c with
  | TypeError | ValueError | OverflowError => true
  | _ => false
  end.

(** ** The module *)

Definition BUILTIN_ATTRS : list string :=
  [ "args"; "asctime"; "created"; "exc_info"; "exc_text"; "filename";
    "funcName"; "levelname"; "levelno"; "lineno"; "module"; "msecs";
    "message"; "msg"; "name"; "pathname"; "process"; "processName";
    "relativeCreated"; "stack_info"; "thread"; "threadName" ].

Definition is_builtin (k : string) : bool :=
  existsb (String.eqb k) BUILTIN_ATTRS.

(** A log record is the location of its [__dict__].  [record.a] reads the
    attribute from there. *)
Definition getattr (h : heap) (rec : loc) (a : string) : result pyval :=
  match get_dict h rec with
  | Some d =>
      match dict_get d a with
      | Some v => Ok v
      | None =>
          Raise (mk_exn AttributeError
                   (squote +:+ "LogRecord" +:+ squote +:+ " object has no attribute "
                    +:+ squote +:+ a +:+ squote))
      end
  | None => Raise (mk_exn TypeError "not a log record")
  end.

(** [bool(v)] *)
Definition truthy (h : heap) (v : pyval) : bool :=
  match v with
  | PNone => false
  | PBool b => b
  | PInt z => negb (z =? 0)%Z
  | PFloat r => negb (String.eqb r "0.0" || String.eqb r "-0.0")
  | PStr s => negb (String.eqb s "")
  | PDatetime _ => true
  | PExcInfo _ _ _ => true
  | PRef l =>
      match h !! l with
      | Some (HDict d) => negb (Nat.eqb (List.length d) 0)
      | Some (HList l) | Some (HTuple l) => negb (Nat.eqb (List.length l) 0)
      | _ => true
      end
  end.

(** [datetime.isoformat(sep)]: [YYYY-MM-DD<sep>HH:MM:SS], then [.ffffff]
    when the microseconds are not zero, then [+HH:MM] for an aware value. *)
Definition format_offset (off : Z) : string :=
  let sign := if (off <? 0)%Z then "-" else "+" in
  let a := Z.abs off in
  sign +:+ pad0 2 (a / 60) +:+ ":" +:+ pad0 2 (a mod 60).

Definition isoformat_sep (sep : string) (t : datetime) : string :=
  pad0 4 (year t) +:+ "-" +:+ pad0 2 (month t) +:+ "-" +:+ pad0 2 (day t)
  +:+ sep
  +:+ pad0 2 (hour t) +:+ ":" +:+ pad0 2 (minute t) +:+ ":" +:+ pad0 2 (second t)
  +:+ (if (microsecond t =? 0)%Z then "" else "." +:+ pad0 6 (microsecond t))
  +:+ match utcoffset t with
      | None => ""
      | Some off => format_offset off
      end.

Definition isoformat : datetime -> string := isoformat_sep "T".

(** [d[k] = v] on the dict stored at [l]. *)
Definition setitem (h : heap) (l : loc) (k : string) (v : pyval) : result heap :=
  match get_dict h l with
  | Some d => Ok (<[l := HDict (dict_set d k v)]> h)
  | None =>
      Raise (mk_exn TypeError "object does not support item assignment")
  end.

(** [LokiFormatter.extra_from_record]: the dict comprehension builds a new
    dict, in the order of [record.__dict__]. *)
Definition extra_of (d : pydict) : pydict :=
  List.filter (fun kv => negb (is_builtin (fst kv))) d.

Definition extra_from_record (h : heap) (rec : loc) : result (heap * loc) :=
  match get_dict h rec with
  | Some d => Ok (alloc h (HDict (extra_of d)))
  | None => Raise (mk_exn TypeError "not a log record")
  end.

(** [LokiFormatter.mutate_json_record]: one pass over the keys, replacing
    each [datetime] value in place, and the argument is returned. *)
Definition mutate_step (d : pydict) (attr_name : string) : pydict :=
  match dict_get d attr_name with
  | Some (PDatetime attr) => dict_set d attr_name (PStr (isoformat attr))
  | _ => d
  end.

Definition mutate_dict (d : pydict) : pydict :=
  fold_left mutate_step (keys d) d.

Definition mutate_json_record (h : heap) (json_record : loc)
  : result (heap * option loc) :=
  match get_dict h json_record with
  | Some d => Ok (<[json_record := HDict (mutate_dict d)]> h, Some json_record)
  | None => Raise (mk_exn TypeError "object is not iterable")
  end.

(** The text the [except Exception] branch of [format] returns. *)
Definition fallback_record (msg : string) : string :=
  "{" +:+ quoted "level" +:+ ": " +:+ quoted "ERROR" +:+ ", "
  +:+ quoted "name" +:+ ": " +:+ quoted "didit_aml.log.LokiFormatter" +:+ ", "
  +:+ quoted "message" +:+ ": " +:+ quoted msg +:+ "}".

Section Formatter.

(** What the class takes from its environment: [str], the log record's
    [getMessage], [logging.Formatter.formatException] and the [dumps] of
    the JSON library bound to [json_lib].  None of them writes to the
    heap.  [dumps] receives the [default] callback, if one is passed. *)
Variable py_str : heap -> pyval -> result string.
Variable getMessage : heap -> loc -> result string.
Variable formatException : heap -> pyval -> result string.
Variable dumps :
  heap -> option (heap -> pyval -> result pyval) -> pyval -> result string.

(** [_json_serializable]: [obj.__dict__], and [str(obj)] when the
    attribute is missing. *)
Definition _json_serializable (h : heap) (obj : pyval) : result pyval :=
  match obj with
  | PRef l =>
      match h !! l with
      | Some (HInst _ (Some attrs) _) => Ok (PRef attrs)
      | _ => s <- py_str h obj ;; Ok (PStr s)
      end
  | _ => s <- py_str h obj ;; Ok (PStr s)
  end.

(** [LokiFormatter.to_json] *)
Definition to_json (h : heap) (record : pyval) : result string :=
  match dumps h (Some _json_serializable) record with
  | Ok s => Ok s
  | Raise e =>
      if is_encode_error (exn_cls e) then
        match dumps h None record with
        | Ok s => Ok s
        | Raise e' =>
            if is_encode_error (exn_cls e') then Ok "{}" else Raise e'
        end
      else Raise e
  end.

(** [LokiFormatter.json_record]: writes into [extra] and returns it. *)
Definition json_record (h : heap) (message : string) (extra rec : loc)
  : result (heap * loc) :=
  h <- setitem h extra "message" (PStr message) ;;
  levelname_ <- getattr h rec "levelname_" ;;
  h <- setitem h extra "level" levelname_ ;;
  name <- getattr h rec "name" ;;
  h <- setitem h extra "name" name ;;
  exc_info <- getattr h rec "exc_info" ;;
  h <- (if truthy h exc_info then
          text <- formatException h exc_info ;;
          setitem h extra "exc_info" (PStr text)
        else Ok h) ;;
  filename <- getattr h rec "filename" ;;
  h <- setitem h extra "filename" filename ;;
  funcName <- getattr h rec "funcName" ;;
  h <- setitem h extra "func_name" funcName ;;
  lineno <- getattr h rec "lineno" ;;
  h <- setitem h extra "lineno" lineno ;;
  module <- getattr h rec "module" ;;
  h <- setitem h extra "module" module ;;
  pathname <- getattr h rec "pathname" ;;
  h <- setitem h extra "pathname" pathname ;;
  Ok (h, extra).

(** The body of the [try] in [LokiFormatter.format], for a formatter whose
    [mutate_json_record] is [hook]. *)
Definition format_try (hook : heap -> loc -> result (heap * option loc))
    (h : heap) (record : loc) : result string :=
  message <- getMessage h record ;;
  he <- extra_from_record h record ;;
  hj <- json_record (fst he) message (snd he) record ;;
  hm <- hook (fst hj) (snd hj) ;;
  let mutated_record :=
    match snd hm with
    | None => snd hj
    | Some m => m
    end in
  to_json (fst hm) (PRef mutated_record).

(** [str(e)] in the [except] branch: the text, or what [e.__str__]
    raises. *)
Definition str_of_exn (e : exn) : result string :=
  match exn_str_raises e with
  | None => Ok (exn_str e)
  | Some (cls, text) => Raise (mk_exn cls text)
  end.

(** [LokiFormatter.format]: the [try] block, and the [except Exception as
    e] branch, which catches instances of [Exception] only and evaluates
    [str(e)] with nothing around it. *)
Definition format_result (hook : heap -> loc -> result (heap * option loc))
    (h : heap) (record : loc) : result string :=
  match format_try hook h record with
  | Ok s => Ok s
  | Raise e =>
      if is_exception (exn_cls e) then
        text <- str_of_exn e ;;
        Ok (fallback_record text)
      else Raise e
  end.

(** What [format] returns when it returns: the result of the [try] block,
    or the fallback record with the text of the exception.  It is the
    value of [format_result] whenever the exception raised, if any, is an
    instance of [Exception] whose [__str__] returns. *)
Definition format_with (hook : heap -> loc -> result (heap * option loc))
    (h : heap) (record : loc) : string :=
  match format_try hook h record with
  | Ok s => s
  | Raise e => fallback_record (exn_str e)
  end.

Definition format : heap -> loc -> string := format_with mutate_json_record.

End Formatter.

(** ** CPython's side of the interface

    A model of the pieces the class calls but does not define, enough to
    run the formatter on concrete records: [str], the [%] operator behind
    [LogRecord.getMessage], [Formatter.formatException] and the standard
    library's [json.dumps] with its default settings.  It covers the
    values of [pyval]; where Python's answer depends on something the
    values do not carry (the [repr] of a container or of an exception
    triple, conversions other than [%s], [%d], [%%], [%(key)s] and
    [%(key)d]) the model raises the exception class [Unmodelled], which
    no statement below relies on. *)
Module CPython.

Definition Unmodelled : exn_class := OtherException "Unmodelled".
Definition unmodelled {A} (what : string) : result A :=
  Raise (mk_exn Unmodelled what).

Definition hex_digit (n : nat) : string :=
  match n with
  | 0 => "0" | 1 => "1" | 2 => "2" | 3 => "3" | 4 => "4" | 5 => "5"
  | 6 => "6" | 7 => "7" | 8 => "8" | 9 => "9" | 10 => "a" | 11 => "b"
  | 12 => "c" | 13 => "d" | 14 => "e" | _ => "f"
  end.

Definition hex2 (n : nat) : string :=
  hex_digit (n / 16) +:+ hex_digit (n mod 16).

(** [type(v).__name__] *)
Definition type_name (h : heap) (v : pyval) : string :=
  match v with
  | PNone => "NoneType"
  | PBool _ => "bool"
  | PInt _ => "int"
  | PFloat _ => "float"
  | PStr _ => "str"
  | PDatetime _ => "datetime"
  | PExcInfo _ _ _ => "tuple"
  | PRef l =>
      match h !! l with
      | Some (HDict _) => "dict"
      | Some (HList _) => "list"
      | Some (HTuple _) => "tuple"
      | Some (HInst cls _ _) => cls
      | None => "object"
      end
  end.

(** [str(v)] *)
Definition py_str (h : heap) (v : pyval) : result string :=
  match v with
  | PNone => Ok "None"
  | PBool true => Ok "True"
  | PBool false => Ok "False"
  | PInt z => Ok (Z_to_dec z)
  | PFloat r => Ok r
  | PStr s => Ok s
  | PDatetime t => Ok (isoformat_sep " " t)
  | PExcInfo _ _ _ => unmodelled "str of an exception triple"
  | PRef l =>
      match h !! l with
      | Some (HInst _ _ text) => Ok text
      | _ => unmodelled "str of a container"
      end
  end.

(** [repr] of a [str] key, as [str(KeyError(key))] shows it: single
    quotes unless the text has a single quote and no double quote;
    backslash, the chosen quote and the usual control characters are
    escaped. *)
Definition repr_char (q : ascii) (c : ascii) : string :=
  let n := nat_of_ascii c in
  if Ascii.eqb c "\" then "\\"
  else if Ascii.eqb c q then String "\" (String q "")
  else if Nat.eqb n 10 then "\n"
  else if Nat.eqb n 13 then "\r"
  else if Nat.eqb n 9 then "\t"
  else if Nat.ltb n 32 || Nat.eqb n 127 then "\x" +:+ hex2 n
  else String c "".

Fixpoint repr_body (q : ascii) (s : string) : string :=
  match s with
  | EmptyString => ""
  | String c s' => repr_char q c +:+ repr_body q s'
  end.

Definition repr_str (s : string) : string :=
  let sq := ascii_of_nat 39 in
  let dq := ascii_of_nat 34 in
  let q := if string_mem sq s && negb (string_mem dq s) then dq else sq in
  String q (repr_body q s) +:+ String q "".

(** *** The [%] operator on [str] *)

Inductive fmt_args :=
| ArgsTuple (l : list pyval)
| ArgsDict (d : pydict)
| ArgsOne (v : pyval).

Inductive fmt_mode :=
| Plain
| AfterPercent
| InKey (key : string)
| AfterKey (key : string).

(** One conversion, [c] being [s] or [d]. *)
Definition convert (h : heap) (c : ascii) (v : pyval) : result string :=
  if Ascii.eqb c "s" then py_str h v
  else
    match v with
    | PInt z => Ok (Z_to_dec z)
    | PBool b => Ok (if b then "1" else "0")
    | PFloat _ => unmodelled "%d of a float"
    | _ =>
        Raise (mk_exn TypeError
                 ("%d format: a real number is required, not " +:+ type_name h v))
    end.

Definition is_conv (c : ascii) : bool := Ascii.eqb c "s" || Ascii.eqb c "d".

Fixpoint percent_go (h : heap) (t : string) (mode : fmt_mode)
    (args : fmt_args) (out : string) : result string :=
  match t with
  | EmptyString =>
      match mode with
      | Plain =>
          match args with
          | ArgsTuple (_ :: _) | ArgsOne _ =>
              Raise (mk_exn TypeError
                       "not all arguments converted during string formatting")
          | _ => Ok out
          end
      | AfterPercent | AfterKey _ => Raise (mk_exn ValueError "incomplete format")
      | InKey _ => Raise (mk_exn ValueError "incomplete format key")
      end
  | String c t' =>
      match mode with
      | Plain =>
          if Ascii.eqb c "%" then percent_go h t' AfterPercent args out
          else percent_go h t' Plain args (out +:+ String c "")
      | AfterPercent =>
          if Ascii.eqb c "%" then percent_go h t' Plain args (out +:+ "%")
          else if Ascii.eqb c "(" then
            match args with
            | ArgsDict _ => percent_go h t' (InKey "") args out
            | _ => Raise (mk_exn TypeError "format requires a mapping")
            end
          else if is_conv c then
            match args with
            | ArgsTuple (v :: rest) =>
                s <- convert h c v ;;
                percent_go h t' Plain (ArgsTuple rest) (out +:+ s)
            | ArgsOne v =>
                s <- convert h c v ;;
                percent_go h t' Plain (ArgsTuple []) (out +:+ s)
            | ArgsTuple [] =>
                Raise (mk_exn TypeError "not enough arguments for format string")
            | ArgsDict _ => unmodelled "a dict as the single argument"
            end
          else unmodelled "conversion"
      | InKey key =>
          if Ascii.eqb c ")" then percent_go h t' (AfterKey key) args out
          else percent_go h t' (InKey (key +:+ String c "")) args out
      | AfterKey key =>
          if is_conv c then
            match args with
            | ArgsDict d =>
                match dict_get d key with
                | Some v =>
                    s <- convert h c v ;;
                    percent_go h t' Plain args (out +:+ s)
                | None => Raise (mk_exn KeyError (repr_str key))
                end
            | _ => Raise (mk_exn TypeError "format requires a mapping")
            end
          else unmodelled "conversion"
      end
  end.

Definition percent (h : heap) (t : string) (args : pyval) : result string :=
  let a :=
    match args with
    | PRef l =>
        match h !! l with
        | Some (HTuple vs) => ArgsTuple vs
        | Some (HDict d) => ArgsDict d
        | _ => ArgsOne args
        end
    | _ => ArgsOne args
    end in
  percent_go h t Plain a "".

(** [LogRecord.getMessage]: [msg = str(self.msg)], then [msg % self.args]
    when [self.args] is true. *)
Definition getMessage (h : heap) (rec : loc) : result string :=
  m <- getattr h rec "msg" ;;
  msg <- py_str h m ;;
  args <- getattr h rec "args" ;;
  if truthy h args then percent h msg args else Ok msg.

(** [Formatter.formatException]: the text [traceback.print_exception]
    writes, without its last newline. *)
Definition formatException (h : heap) (ei : pyval) : result string :=
  match ei with
  | PExcInfo tb etype emsg =>
      Ok ((match tb with
           | [] => ""
           | _ => "Traceback (most recent call last):" +:+ newline
                  +:+ String.concat "" tb
           end)
          +:+ etype +:+ (if String.eqb emsg "" then "" else ": " +:+ emsg))
  | PRef _ => unmodelled "exc_info held in a container"
  | _ =>
      Raise (mk_exn TypeError
               (squote +:+ type_name h ei +:+ squote
                +:+ " object is not subscriptable"))
  end.

End CPython.

(** ** The standard library's [json]

    [dumps] with its default settings ([ensure_ascii], [check_circular],
    separators [", "] and [": "]) and a reader for JSON texts. *)
Module Json.

(** Python's recursion limit: nesting deeper than this raises
    [RecursionError]. *)
Definition recursion_limit : nat := 1000.

Definition escape_char (c : ascii) : string :=
  let n := nat_of_ascii c in
  if Nat.eqb n 34 then "\" +:+ dquote
  else if Nat.eqb n 92 then "\\"
  else if Nat.eqb n 10 then "\n"
  else if Nat.eqb n 13 then "\r"
  else if Nat.eqb n 9 then "\t"
  else if Nat.eqb n 8 then "\b"
  else if Nat.eqb n 12 then "\f"
  else if Nat.ltb n 32 || Nat.ltb 126 n then "\u00" +:+ CPython.hex2 n
  else String c "".

Fixpoint escape (s : string) : string :=
  match s with
  | EmptyString => ""
  | String c s' => escape_char c +:+ escape s'
  end.

Definition encode_str (s : string) : string := quoted (escape s).

Fixpoint mapM {A B} (f : A -> result B) (l : list A) : result (list B) :=
  match l with
  | [] => Ok []
  | x :: rest => y <- f x ;; ys <- mapM f rest ;; Ok (y :: ys)
  end.

Definition circular {A} : result A :=
  Raise (mk_exn ValueError "Circular reference detected").

Definition marked (l : loc) (markers : list loc) : bool :=
  existsb (Nat.eqb l) markers.

Fixpoint encode (fuel : nat) (h : heap)
    (default : option (heap -> pyval -> result pyval))
    (markers : list loc) (o : pyval) {struct fuel} : result string :=
  match fuel with
  | O =>
      Raise (mk_exn RecursionError
               "maximum recursion depth exceeded while encoding a JSON object")
  | S fuel' =>
      let via_default (marker : list loc) :=
        match default with
        | None =>
            Raise (mk_exn TypeError
                     ("Object of type " +:+ CPython.type_name h o
                      +:+ " is not JSON serializable"))
        | Some f =>
            if existsb (fun l => marked l markers) marker then circular
            else o' <- f h o ;; encode fuel' h default (marker ++ markers) o'
        end in
      let sequence (l : loc) (vs : list pyval) :=
        if marked l markers then circular
        else
          items <- mapM (encode fuel' h default (l :: markers)) vs ;;
          Ok ("[" +:+ join ", " items +:+ "]") in
      match o with
      | PNone => Ok "null"
      | PBool true => Ok "true"
      | PBool false => Ok "false"
      | PInt z => Ok (Z_to_dec z)
      | PFloat r =>
          Ok (if String.eqb r "nan" then "NaN"
              else if String.eqb r "inf" then "Infinity"
              else if String.eqb r "-inf" then "-Infinity"
              else r)
      | PStr s => Ok (encode_str s)
      | PDatetime _ => via_default []
      | PExcInfo _ _ _ => CPython.unmodelled "dumps of an exception triple"
      | PRef l =>
          match h !! l with
          | Some (HDict d) =>
              if marked l markers then circular
              else
                items <- mapM (fun kv =>
                                 s <- encode fuel' h default (l :: markers) (snd kv) ;;
                                 Ok (encode_str (fst kv) +:+ ": " +:+ s)) d ;;
                Ok ("{" +:+ join ", " items +:+ "}")
          | Some (HList vs) => sequence l vs
          | Some (HTuple vs) => sequence l vs
          | Some (HInst _ _ _) => via_default [l]
          | None => Raise (mk_exn TypeError "dangling reference")
          end
      end
  end.

(** [json.dumps(obj, default=default)] *)
Definition dumps (h : heap) (default : option (heap -> pyval -> result pyval))
    (obj : pyval) : result string :=
  encode recursion_limit h default [] obj.

End Json.

(** ** The formatter on CPython with the standard [json] *)

Definition to_json_cpython : heap -> pyval -> result string :=
  to_json CPython.py_str Json.dumps.

Definition format_cpython : heap -> loc -> string :=
  format CPython.py_str CPython.getMessage CPython.formatException Json.dumps.

(** ** Sample records

    [log_record] lays out a [LogRecord.__dict__] the way
    [LogRecord.__init__] fills it, followed by the [extra] entries that
    [Logger.makeRecord] adds. *)
Definition log_record (name levelname : string) (levelno : Z) (msg args : pyval)
    (exc_info : pyval) (extra : pydict) : pydict :=
  [ ("name", PStr name); ("msg", msg); ("args", args);
    ("levelname", PStr levelname); ("levelno", PInt levelno);
    ("pathname", PStr "/srv/app/views.py"); ("filename", PStr "views.py");
    ("module", PStr "views"); ("exc_info", exc_info); ("exc_text", PNone);
    ("stack_info", PNone); ("lineno", PInt 42); ("funcName", PStr "login");
    ("created", PFloat "1700000000.25"); ("msecs", PFloat "250.0");
    ("relativeCreated", PFloat "1234.5"); ("thread", PInt 140001);
    ("threadName", PStr "MainThread"); ("processName", PStr "MainProcess");
    ("process", PInt 4711) ] ++ extra.

(** [logger.info("user %s logged in", "alice", extra={"request_id": "abc123"})]:
    the record's [__dict__] at location 0, its [args] tuple at location 1. *)
Definition alice_heap : heap :=
  [ HDict (log_record "app" "INFO" 20 (PStr "user %s logged in") (PRef 1) PNone
             [("request_id", PStr "abc123")]);
    HTuple [PStr "alice"] ].

(** ** Reading JSON

    A reader for RFC 8259 texts, used to say what "the output parses as a
    JSON object" means.  Numbers are kept as their lexemes. *)
Module JsonParse.

Inductive json :=
| JNull
| JBool (b : bool)
| JNum (lexeme : string)
| JStr (s : string)
| JArr (items : list json)
| JObj (members : list (string * json)).

Definition is_ws (c : ascii) : bool :=
  let n := nat_of_ascii c in
  Nat.eqb n 32 || Nat.eqb n 9 || Nat.eqb n 10 || Nat.eqb n 13.

Fixpoint skip_ws (s : string) : string :=
  match s with
  | String c s' => if is_ws c then skip_ws s' else s
  | EmptyString => s
  end.

Definition is_digit (c : ascii) : bool :=
  let n := nat_of_ascii c in Nat.leb 48 n && Nat.leb n 57.

Definition hex_val (c : ascii) : option nat :=
  let n := nat_of_ascii c in
  if Nat.leb 48 n && Nat.leb n 57 then Some (n - 48)
  else if Nat.leb 97 n && Nat.leb n 102 then Some (n - 87)
  else if Nat.leb 65 n && Nat.leb n 70 then Some (n - 55)
  else None.

(** The rest of a string literal, after its opening quote.  A [\u]
    escape below 256 is decoded to its character; a higher one is kept
    as written. *)
Fixpoint read_string (s : string) (acc : string) : option (string * string) :=
  match s with
  | EmptyString => None
  | String c s' =>
      let n := nat_of_ascii c in
      if Nat.eqb n 34 then Some (acc, s')
      else if Nat.ltb n 32 then None
      else if Nat.eqb n 92 then
        match s' with
        | String e s'' =>
            let m := nat_of_ascii e in
            if Nat.eqb m 34 || Nat.eqb m 92 || Nat.eqb m 47 then
              read_string s'' (acc +:+ String e "")
            else if Ascii.eqb e "b" then read_string s'' (acc +:+ String (ascii_of_nat 8) "")
            else if Ascii.eqb e "f" then read_string s'' (acc +:+ String (ascii_of_nat 12) "")
            else if Ascii.eqb e "n" then read_string s'' (acc +:+ String (ascii_of_nat 10) "")
            else if Ascii.eqb e "r" then read_string s'' (acc +:+ String (ascii_of_nat 13) "")
            else if Ascii.eqb e "t" then read_string s'' (acc +:+ String (ascii_of_nat 9) "")
            else if Ascii.eqb e "u" then
              match s'' with
              | String a (String b (String c' (String d s3))) =>
                  match hex_val a, hex_val b, hex_val c', hex_val d with
                  | Some x, Some y, Some z, Some w =>
                      if Nat.eqb x 0 && Nat.eqb y 0 then
                        read_string s3 (acc +:+ String (ascii_of_nat (16 * z + w)) "")
                      else
                        read_string s3
                          (acc +:+ "\u" +:+ String a (String b (String c' (String d ""))))
                  | _, _, _, _ => None
                  end
              | _ => None
              end
            else None
        | EmptyString => None
        end
      else read_string s' (acc +:+ String c "")
  end.

Fixpoint read_digits (s : string) (acc : string) : string * string :=
  match s with
  | String c s' => if is_digit c then read_digits s' (acc +:+ String c "") else (acc, s)
  | EmptyString => (acc, s)
  end.

(** A number: an optional minus sign; [0], or a digit from 1 to 9 and
    more digits; an optional fraction, a dot and digits; an optional
    exponent, [e] or [E], a sign if any, and digits. *)
Definition read_number (s : string) : option (string * string) :=
  let '(sign, s1) :=
    match s with
    | String c s' => if Ascii.eqb c "-" then ("-", s') else ("", s)
    | _ => ("", s)
    end in
  let '(int, s2) := read_digits s1 "" in
  let int_ok :=
    match int with
    | EmptyString => false
    | String c EmptyString => true
    | String c _ => negb (Ascii.eqb c "0")
    end in
  if negb int_ok then None
  else
    let frac :=
      match s2 with
      | String c s' =>
          if Ascii.eqb c "." then
            let '(ds, r) := read_digits s' "" in
            if String.eqb ds "" then None else Some ("." +:+ ds, r)
          else Some ("", s2)
      | _ => Some ("", s2)
      end in
    match frac with
    | None => None
    | Some (fr, s3) =>
        let exp :=
          match s3 with
          | String c s' =>
              if Ascii.eqb c "e" || Ascii.eqb c "E" then
                let '(sg, s'') :=
                  match s' with
                  | String d r =>
                      if Ascii.eqb d "+" || Ascii.eqb d "-" then (String d "", r)
                      else ("", s')
                  | _ => ("", s')
                  end in
                let '(ds, r) := read_digits s'' "" in
                if String.eqb ds "" then None
                else Some (String c "" +:+ sg +:+ ds, r)
              else Some ("", s3)
          | _ => Some ("", s3)
          end in
        match exp with
        | None => None
        | Some (ex, s4) => Some (sign +:+ int +:+ fr +:+ ex, s4)
        end
    end.

Definition strip_prefix (p s : string) : option string :=
  if String.prefix p s then Some (String.substring (String.length p) (String.length s - String.length p) s)
  else None.

Fixpoint read_value (fuel : nat) (s : string) {struct fuel} : option (json * string) :=
  match fuel with
  | O => None
  | S n =>
      let items :=
        fix items (k : nat) (s : string) (acc : list json) {struct k}
          : option (json * string) :=
          match k with
          | O => None
          | S k' =>
              match read_value n s with
              | Some (v, r) =>
                  match skip_ws r with
                  | String c r' =>
                      if Ascii.eqb c "," then items k' r' (acc ++ [v])
                      else if Ascii.eqb c "]" then Some (JArr (acc ++ [v]), r')
                      else None
                  | EmptyString => None
                  end
              | None => None
              end
          end in
      let members :=
        fix members (k : nat) (s : string) (acc : list (string * json)) {struct k}
          : option (json * string) :=
          match k with
          | O => None
          | S k' =>
              match skip_ws s with
              | String q s1 =>
                  if negb (Nat.eqb (nat_of_ascii q) 34) then None
                  else
                    match read_string s1 "" with
                    | Some (key, s2) =>
                        match skip_ws s2 with
                        | String c s3 =>
                            if negb (Ascii.eqb c ":") then None
                            else
                              match read_value n s3 with
                              | Some (v, r) =>
                                  match skip_ws r with
                                  | String c r' =>
                                      if Ascii.eqb c "," then
                                        members k' r' (acc ++ [(key, v)])
                                      else if Ascii.eqb c "}" then
                                        Some (JObj (acc ++ [(key, v)]), r')
                                      else None
                                  | EmptyString => None
                                  end
                              | None => None
                              end
                        | EmptyString => None
                        end
                    | None => None
                    end
              | EmptyString => None
              end
          end in
      match skip_ws s with
      | EmptyString => None
      | String c s' =>
          let m := nat_of_ascii c in
          if Ascii.eqb c "{" then
            match skip_ws s' with
            | String d r => if Ascii.eqb d "}" then Some (JObj [], r) else members n s' []
            | EmptyString => None
            end
          else if Ascii.eqb c "[" then
            match skip_ws s' with
            | String d r => if Ascii.eqb d "]" then Some (JArr [], r) else items n s' []
            | EmptyString => None
            end
          else if Nat.eqb m 34 then
            match read_string s' "" with
            | Some (str, r) => Some (JStr str, r)
            | None => None
            end
          else if Ascii.eqb c "t" then
            match strip_prefix "true" (String c s') with
            | Some r => Some (JBool true, r) | None => None end
          else if Ascii.eqb c "f" then
            match strip_prefix "false" (String c s') with
            | Some r => Some (JBool false, r) | None => None end
          else if Ascii.eqb c "n" then
            match strip_prefix "null" (String c s') with
            | Some r => Some (JNull, r) | None => None end
          else
            match read_number (String c s') with
            | Some (lex, r) => Some (JNum lex, r)
            | None => None
            end
      end
  end.

(** [json.loads]: one value, nothing but blanks after it.  No value
    nests deeper, and no container has more entries, than the text has
    characters. *)
Definition loads (s : string) : option json :=
  match read_value (S (String.length s)) s with
  | Some (v, r) => if String.eqb (skip_ws r) "" then Some v else None
  | None => None
  end.

Definition is_object (s : string) : bool :=
  match loads s with
  | Some (JObj _) => true
  | _ => false
  end.

(** The value under [key] in a parsed object (the last one, as
    [json.loads] keeps it). *)
Fixpoint member (key : string) (ms : list (string * json)) : option json :=
  match ms with
  | [] => None
  | (k, v) :: rest =>
      match member key rest with
      | Some v' => Some v'
      | None => if String.eqb key k then Some v else None
      end
  end.

Definition field (s key : string) : option json :=
  match loads s with
  | Some (JObj ms) => member key ms
  | _ => None
  end.

End JsonParse.

(** ** Definitions used in the statements, and sample heaps *)

(** What the hook does to one value. *)
Definition coerce (v : pyval) : pyval :=
  match v with
  | PDatetime t => PStr (isoformat t)
  | _ => v
  end.

Definition is_datetime (v : pyval) : bool :=
  match v with
  | PDatetime _ => true
  | _ => false
  end.

Definition coerce_entry (kv : string * pyval) : string * pyval :=
  (fst kv, coerce (snd kv)).

(** No value of the dict is a [datetime]. *)
Definition no_datetime (d : pydict) : bool :=
  forallb (fun kv => negb (is_datetime (snd kv))) d.

Definition new_year : datetime := mk_datetime 2024 1 2 3 4 5 0 (Some 0%Z).

Definition stamped_heap : heap :=
  [ HDict [("when", PDatetime new_year); ("n", PInt 1)] ].

(** [obj] has a [__dict__]. *)
Definition has_dict (h : heap) (obj : pyval) : bool :=
  match obj with
  | PRef l =>
      match h !! l with
      | Some (HInst _ (Some _) _) => true
      | _ => false
      end
  | _ => false
  end.

(** A JSON library in the manner of ujson: its [dumps] takes no [default]
    argument and raises [TypeError] when given one. *)
Definition dumps_without_default (h : heap)
    (default : option (heap -> pyval -> result pyval)) (obj : pyval) : result string :=
  match default with
  | Some _ =>
      Raise (mk_exn TypeError
               "dumps() got an unexpected keyword argument 'default'")
  | None => Json.dumps h None obj
  end.

(** An instance of a class [Point] with [__dict__ == {"x": 1, "y": 2}],
    held by the dict at location 0. *)
Definition point_heap : heap :=
  [ HDict [("p", PRef 1)];
    HInst "Point" (Some 2) "<Point object>";
    HDict [("x", PInt 1); ("y", PInt 2)] ].

(** A dict that holds itself. *)
Definition loop_heap : heap := [ HDict [("self", PRef 0)] ].

(** The record of [alice_heap] on a host where records also carry an
    attribute [levelname_] (set by a [LogRecord] factory, a filter, or
    passed in [extra]). *)
Definition alice_levelname_heap : heap :=
  [ HDict (log_record "app" "INFO" 20 (PStr "user %s logged in") (PRef 1) PNone
             [("request_id", PStr "abc123"); ("levelname_", PStr "INFO")]);
    HTuple [PStr "alice"] ].

(** An override of [mutate_json_record] that writes one key into its
    argument and has no [return] statement. *)
Definition stamp_hook (h : heap) (json_record : loc) : result (heap * option loc) :=
  h' <- setitem h json_record "stamped" (PBool true) ;;
  Ok (h', None).

(** [d[k] = v] for each pair of [fs], from left to right. *)
Fixpoint write_all (e : pydict) (fs : list (string * pyval)) : pydict :=
  match fs with
  | [] => e
  | (k, v) :: rest => write_all (dict_set e k v) rest
  end.

(** What the [if record.exc_info:] statement has to write, in heap [h]. *)
Definition exc_text (formatException : heap -> pyval -> result string)
    (h : heap) (exc_info : pyval) : result (option string) :=
  if truthy h exc_info then t <- formatException h exc_info ;; Ok (Some t)
  else Ok None.

(** The writes of [json_record], in order. *)
Definition fixed_fields (message : string) (levelname_ name : pyval)
    (exc : option string) (filename funcName lineno module pathname : pyval)
  : list (string * pyval) :=
  [("message", PStr message); ("level", levelname_); ("name", name)]
  ++ match exc with
     | Some t => [("exc_info", PStr t)]
     | None => []
     end
  ++ [("filename", filename); ("func_name", funcName); ("lineno", lineno);
      ("module", module); ("pathname", pathname)].


(** An exception whose [__str__] raises [RuntimeError], and a
    [getMessage] that raises it: what [record.getMessage()] does when
    [str(record.msg)] raises such an exception. *)
Definition unprintable : exn :=
  Exn (OtherException "Unprintable") ""
    (Some (OtherException "RuntimeError", "no text for this error")).

Definition getMessage_unprintable (h : heap) (record : loc) : result string :=
  Raise unprintable.

(** A [getMessage] interrupted by [KeyboardInterrupt]. *)
Definition getMessage_interrupted (h : heap) (record : loc) : result string :=
  Raise (mk_exn (BaseExceptionOnly "KeyboardInterrupt") "").

(** [sys.exc_info()] inside [except ValueError:] after [raise
    ValueError("boom")] in [views.py], and the text
    [formatException] gives for it. *)
Definition boom_frame : string :=
  "  File " +:+ quoted "/srv/app/views.py" +:+ ", line 41, in login" +:+ newline
  +:+ "    check(user)" +:+ newline.

Definition boom : pyval := PExcInfo [boom_frame] "ValueError" "boom".

Definition boom_text : string :=
  "Traceback (most recent call last):" +:+ newline +:+ boom_frame
  +:+ "ValueError: boom".

(** A record with exception info at location 0; at location 1 an extras
    dict whose keys [level] and [exc_info] are also fixed fields. *)
Definition collide_record : pydict :=
  log_record "app" "ERROR" 40 (PStr "failed") PNone boom
    [("levelname_", PStr "ERROR")].

Definition collide_extras : pydict :=
  [("level", PStr "mine"); ("exc_info", PStr "mine"); ("user", PStr "alice")].

Definition collide_heap : heap := [ HDict collide_record; HDict collide_extras ].

(** The text of the [AttributeError] that [record.levelname_] raises. *)
Definition no_levelname_ : string :=
  squote +:+ "LogRecord" +:+ squote +:+ " object has no attribute "
  +:+ squote +:+ "levelname_" +:+ squote.

(** A record with exception info, as [logger.exception("failed")] makes
    it. *)
Definition boom_heap : heap :=
  [ HDict (log_record "app" "ERROR" 40 (PStr "failed") PNone boom []) ].

(** [logger.info("hello", extra={"data": d})] where [d["self"] is d]. *)
Definition loop_record_heap : heap :=
  [ HDict (log_record "app" "INFO" 20 (PStr "hello") PNone PNone [("data", PRef 1)]);
    HDict [("self", PRef 1)] ].

(** [logger.info(template, {"b": 1})] where the template names a key
    that is missing from the mapping and has a double quote in it. *)
Definition key_error_heap : heap :=
  [ HDict (log_record "app" "INFO" 20 (PStr ("%(a" +:+ dquote +:+ ")s")) (PRef 1)
             PNone []);
    HDict [("b", PInt 1)] ].

(** A list nested a thousand lists deep: the list at location [i] holds
    the list at location [i + 1]. *)
Definition deep_heap : heap :=
  map (fun i => HList [PRef (S i)]) (seq 0 1000) ++ [HList []].

(** A dict with a [datetime] value and a list that holds a [datetime]. *)
Definition nested_heap : heap :=
  [ HDict [("when", PDatetime new_year); ("seen", PRef 1)];
    HList [PDatetime new_year] ].



(** [h'] differs from [h] at location [l] at most. *)
Definition same_except (l : loc) (h h' : heap) : Prop :=
  List.length h' = List.length h /\ forall l', l' <> l -> h' !! l' = h !! l'.

(** [k in d] *)
Definition has_key (d : pydict) (k : string) : bool :=
  match dict_get d k with
  | Some _ => true
  | None => false
  end.


(** The [__dict__] of the record of [alice_levelname_heap]. *)
Definition alice_levelname_record : pydict :=
  log_record "app" "INFO" 20 (PStr "user %s logged in") (PRef 1) PNone
    [("request_id", PStr "abc123"); ("levelname_", PStr "INFO")].


(** * Properties *)

(** ** Dicts *)

Lemma dict_get_set_eq (d : pydict) (k : string) (v : pyval) :
  dict_get (dict_set d k v) k = Some v.
Proof.
  induction d as [|[k' v'] d IH]; simpl.
  - by rewrite String.eqb_refl.
  - destruct (String.eqb k k') eqn:E; simpl; rewrite E; [done | exact IH].
Qed.

Lemma dict_get_set_ne (d : pydict) (k k' : string) (v : pyval) :
  k <> k' -> dict_get (dict_set d k v) k' = dict_get d k'.
Proof.
  intros Hne. induction d as [|[k0 v0] d IH]; simpl.
  - destruct (String.eqb k' k) eqn:E; [|done].
    apply String.eqb_eq in E. congruence.
  - destruct (String.eqb k k0) eqn:E; simpl.
    + apply String.eqb_eq in E. subst k0.
      destruct (String.eqb k' k) eqn:E'; [|done].
      apply String.eqb_eq in E'. congruence.
    + by rewrite IH.
Qed.

Lemma dict_get_None_keys (d : pydict) (k : string) :
  dict_get d k = None <-> k ∉ keys d.
Proof.
  induction d as [|[k' v'] d IH]; simpl.
  - split; [intros _; apply not_elem_of_nil | done].
  - rewrite not_elem_of_cons. destruct (String.eqb k k') eqn:E.
    + apply String.eqb_eq in E. split; [done | intros [? _]; done].
    + apply String.eqb_neq in E. rewrite IH. tauto.
Qed.

Lemma dict_get_Some_In (d : pydict) (k : string) (v : pyval) :
  dict_get d k = Some v -> (k, v) ∈ d.
Proof.
  induction d as [|[k' v'] d IH]; simpl; [done|].
  destruct (String.eqb k k') eqn:E.
  - apply String.eqb_eq in E. intros [= ->]. subst. apply list_elem_of_here.
  - intros H. apply list_elem_of_further, IH, H.
Qed.

Lemma keys_dict_set (d : pydict) (k : string) (v : pyval) :
  keys (dict_set d k v) = if decide (k ∈ keys d) then keys d else keys d ++ [k].
Proof.
  induction d as [|[k' v'] d IH].
  - destruct (decide (k ∈ keys [])) as [Hin|_]; [|done].
    by apply not_elem_of_nil in Hin.
  - cbn [dict_set]. destruct (String.eqb k k') eqn:E.
    + apply String.eqb_eq in E. subst k'.
      destruct (decide (k ∈ keys ((k, v') :: d))) as [_|Hout]; [done|].
      exfalso. apply Hout. apply list_elem_of_here.
    + apply String.eqb_neq in E.
      change (keys ((k', v') :: dict_set d k v)) with (k' :: keys (dict_set d k v)).
      change (keys ((k', v') :: d)) with (k' :: keys d).
      rewrite IH.
      destruct (decide (k ∈ keys d)) as [Hin|Hout];
        destruct (decide (k ∈ k' :: keys d)) as [Hin'|Hout']; try done.
      * exfalso. apply Hout'. by apply list_elem_of_further.
      * apply elem_of_cons in Hin' as [?|?]; done.
Qed.


Lemma dict_get_app_r (a b : pydict) (k : string) :
  k ∉ keys a -> dict_get (a ++ b) k = dict_get b k.
Proof.
  induction a as [|[k' v'] a IH]; simpl; [done|].
  rewrite not_elem_of_cons. intros [Hne Hout].
  apply String.eqb_neq in Hne. rewrite Hne. by apply IH.
Qed.

Lemma dict_set_app_r (a b : pydict) (k : string) (v v' : pyval) :
  k ∉ keys a -> dict_set (a ++ (k, v) :: b) k v' = a ++ (k, v') :: b.
Proof.
  induction a as [|[k0 v0] a IH]; simpl.
  - intros _. by rewrite String.eqb_refl.
  - rewrite not_elem_of_cons. intros [Hne Hout].
    apply String.eqb_neq in Hne. rewrite Hne. by rewrite IH.
Qed.

(** ** [mutate_json_record] *)

Lemma mutate_step_head (pre suf : pydict) (k : string) (v : pyval) :
  k ∉ keys pre ->
  mutate_step (pre ++ (k, v) :: suf) k = pre ++ (k, coerce v) :: suf.
Proof.
  intros Hout. unfold mutate_step.
  rewrite dict_get_app_r by done. simpl. rewrite String.eqb_refl.
  destruct v; simpl; try done. by apply dict_set_app_r.
Qed.

Lemma mutate_fold (suf pre : pydict) :
  NoDup (keys (pre ++ suf)) ->
  fold_left mutate_step (keys suf) (pre ++ suf)
  = pre ++ map coerce_entry suf.
Proof.
  revert pre. induction suf as [|[k v] suf IH]; intros pre Hnd; simpl; [done|].
  assert (Hout : k ∉ keys pre).
  { unfold keys in Hnd. rewrite map_app in Hnd. simpl in Hnd.
    apply NoDup_app in Hnd as (_ & Hdisj & _).
    intros Hin. apply (Hdisj k Hin). apply list_elem_of_here. }
  rewrite mutate_step_head by done.
  replace (pre ++ (k, coerce v) :: suf) with ((pre ++ [(k, coerce v)]) ++ suf)
    by (by rewrite <- app_assoc).
  rewrite IH.
  - by rewrite <- app_assoc.
  - unfold keys in *. rewrite !map_app in *. simpl in *.
    by rewrite <- app_assoc.
Qed.

Lemma mutate_dict_map (d : pydict) :
  NoDup (keys d) -> mutate_dict d = map coerce_entry d.
Proof. intros Hnd. exact (mutate_fold d [] Hnd). Qed.

Lemma keys_coerce (d : pydict) : keys (map coerce_entry d) = keys d.
Proof. unfold keys. rewrite map_map. by apply map_ext. Qed.

Lemma dict_get_coerce (d : pydict) (k : string) :
  dict_get (map coerce_entry d) k = option_map coerce (dict_get d k).
Proof.
  induction d as [|[k' v'] d IH]; simpl; [done|].
  by destruct (String.eqb k k').
Qed.

Lemma no_datetime_get (d : pydict) (k : string) (v : pyval) :
  no_datetime d = true -> dict_get d k = Some v -> is_datetime v = false.
Proof.
  induction d as [|[k' v'] d IH]; simpl; [done|].
  intros [Hv Hd]%andb_true_iff. destruct (String.eqb k k').
  - intros [= <-]. by apply negb_true_iff.
  - by apply IH.
Qed.

Lemma mutate_step_no_datetime (d : pydict) (k : string) :
  no_datetime d = true -> mutate_step d k = d.
Proof.
  intros Hd. unfold mutate_step.
  destruct (dict_get d k) as [v|] eqn:E; [|done].
  apply (no_datetime_get _ _ _ Hd) in E. by destruct v.
Qed.

Lemma mutate_dict_no_datetime (d : pydict) :
  no_datetime d = true -> mutate_dict d = d.
Proof.
  intros Hd. unfold mutate_dict. induction (keys d) as [|k ks IH]; simpl; [done|].
  by rewrite mutate_step_no_datetime.
Qed.

Lemma no_datetime_coerce (d : pydict) : no_datetime (map coerce_entry d) = true.
Proof.
  induction d as [|[k v] d IH]; simpl; [done|].
  rewrite IH, andb_true_r. by destruct v.
Qed.

Lemma get_dict_insert_eq (h : heap) (l : loc) (d d' : pydict) :
  get_dict h l = Some d -> get_dict (<[l := HDict d']> h) l = Some d'.
Proof.
  unfold get_dict. intros H.
  destruct (h !! l) as [o|] eqn:E; [|done].
  apply lookup_lt_Some in E. by rewrite list_lookup_insert_eq.
Qed.

Lemma get_dict_insert_ne (h : heap) (l l' : loc) (d' : pydict) :
  l <> l' -> get_dict (<[l := HDict d']> h) l' = get_dict h l'.
Proof. intros Hne. unfold get_dict. by rewrite list_lookup_insert_ne. Qed.

Lemma get_dict_lookup (h : heap) (l : loc) (d : pydict) :
  get_dict h l = Some d <-> h !! l = Some (HDict d).
Proof.
  unfold get_dict. destruct (h !! l) as [[]|]; split; congruence.
Qed.

(** C8.  The default [mutate_json_record], applied to a dict with distinct
    keys, succeeds, returns the dict it was given, and leaves in it the
    same keys in the same order, each holding the ISO 8601 text of the
    [datetime] it held, or else the value it held. *)
Theorem mutate_json_record_coerces (h : heap) (l : loc) (d : pydict) :
  get_dict h l = Some d ->
  NoDup (keys d) ->
  exists d',
    mutate_json_record h l = Ok (<[l := HDict d']> h, Some l)
    /\ keys d' = keys d
    /\ (forall k t, dict_get d k = Some (PDatetime t) ->
                    dict_get d' k = Some (PStr (isoformat t)))
    /\ (forall k v, dict_get d k = Some v -> is_datetime v = false ->
                    dict_get d' k = Some v)
    /\ (forall k, dict_get d k = None -> dict_get d' k = None).
Proof.
  intros Hd Hnd. exists (map coerce_entry d).
  unfold mutate_json_record. rewrite Hd, mutate_dict_map by done.
  split; [done|]. split; [apply keys_coerce|].
  repeat split; intros k.
  - intros t Hk. by rewrite dict_get_coerce, Hk.
  - intros v Hk Hv. rewrite dict_get_coerce, Hk. by destruct v.
  - intros Hk. by rewrite dict_get_coerce, Hk.
Qed.

Lemma mutate_json_record_coerces_witness :
  exists d',
    mutate_json_record stamped_heap 0 = Ok (<[0 := HDict d']> stamped_heap, Some 0)
    /\ keys d' = ["when"; "n"]
    /\ (forall k t, dict_get [("when", PDatetime new_year); ("n", PInt 1)] k
                    = Some (PDatetime t) ->
                    dict_get d' k = Some (PStr (isoformat t)))
    /\ (forall k v, dict_get [("when", PDatetime new_year); ("n", PInt 1)] k = Some v ->
                    is_datetime v = false -> dict_get d' k = Some v)
    /\ (forall k, dict_get [("when", PDatetime new_year); ("n", PInt 1)] k = None ->
                  dict_get d' k = None).
Proof.
  apply (mutate_json_record_coerces stamped_heap 0
           [("when", PDatetime new_year); ("n", PInt 1)]).
  - reflexivity.
  - apply (@bool_decide_unpack (NoDup ["when"; "n"]) _). vm_compute. exact I.
Defined.

(** C9.  On a dict none of whose values is a [datetime], the default
    [mutate_json_record] changes nothing: it returns the dict it was given
    and the heap is the one it started from. *)
Theorem mutate_json_record_noop (h : heap) (l : loc) (d : pydict) :
  get_dict h l = Some d ->
  no_datetime d = true ->
  mutate_json_record h l = Ok (h, Some l).
Proof.
  intros Hd Hno. unfold mutate_json_record.
  rewrite Hd, mutate_dict_no_datetime by done.
  rewrite list_insert_id; [done|]. by apply get_dict_lookup.
Qed.

Lemma mutate_json_record_noop_witness :
  mutate_json_record [HDict [("when", PStr "2024-01-02T03:04:05+00:00"); ("n", PInt 1)]] 0
  = Ok ([HDict [("when", PStr "2024-01-02T03:04:05+00:00"); ("n", PInt 1)]], Some 0).
Proof.
  apply (mutate_json_record_noop _ 0
           [("when", PStr "2024-01-02T03:04:05+00:00"); ("n", PInt 1)]);
    reflexivity.
Defined.

(** Running the hook again on its own result changes nothing. *)
Lemma mutate_json_record_twice (h h1 : heap) (l : loc) (d : pydict) (r : option loc) :
  get_dict h l = Some d ->
  NoDup (keys d) ->
  mutate_json_record h l = Ok (h1, r) ->
  mutate_json_record h1 l = Ok (h1, r).
Proof.
  intros Hd Hnd. unfold mutate_json_record at 1.
  rewrite Hd, mutate_dict_map by done. intros [= <- <-].
  apply (mutate_json_record_noop _ _ (map coerce_entry d)).
  - by apply (get_dict_insert_eq h l d).
  - apply no_datetime_coerce.
Qed.

Example isoformat_new_year : isoformat new_year = "2024-01-02T03:04:05+00:00".
Proof. reflexivity. Qed.

(** ** [extra_from_record] *)

Lemma is_builtin_spec (k : string) : is_builtin k = true <-> k ∈ BUILTIN_ATTRS.
Proof.
  unfold is_builtin. rewrite existsb_exists. split.
  - intros (x & Hx & E). apply String.eqb_eq in E. subst x.
    by apply list_elem_of_In.
  - intros Hk. exists k. split; [by apply list_elem_of_In | apply String.eqb_refl].
Qed.

Lemma extra_of_spec (d : pydict) (k : string) (v : pyval) :
  (k, v) ∈ extra_of d <-> (k, v) ∈ d /\ k ∉ BUILTIN_ATTRS.
Proof.
  pose proof (is_builtin_spec k) as Hb. unfold extra_of. split.
  - intros Hin. apply list_elem_of_In, filter_In in Hin as [Hin Hk].
    cbn [fst] in Hk. split; [by apply list_elem_of_In|].
    intros Hk'. apply Hb in Hk'. rewrite Hk' in Hk. done.
  - intros [Hin Hout]. apply list_elem_of_In, filter_In.
    split; [by apply list_elem_of_In|]. cbn [fst].
    destruct (is_builtin k); [|done]. exfalso. by apply Hout, Hb.
Qed.

Lemma extra_of_builtin_only (d : pydict) :
  (forall k, k ∈ keys d -> k ∈ BUILTIN_ATTRS) -> extra_of d = [].
Proof.
  intros Hall. destruct (extra_of d) as [|[k v] e] eqn:E; [done|].
  assert (Hin : (k, v) ∈ extra_of d) by (rewrite E; apply list_elem_of_here).
  apply extra_of_spec in Hin as [Hin Hout]. exfalso. apply Hout, Hall.
  unfold keys. apply list_elem_of_In, in_map_iff. exists (k, v).
  split; [done | by apply list_elem_of_In].
Qed.

Lemma extra_of_keys_NoDup (d : pydict) : NoDup (keys d) -> NoDup (keys (extra_of d)).
Proof.
  unfold extra_of, keys. induction d as [|[k v] d IH]; simpl; [done|].
  intros Hnd. apply NoDup_cons in Hnd as [Hk Hd].
  destruct (negb (is_builtin k)); simpl; [|by apply IH].
  apply NoDup_cons. split; [|by apply IH].
  intros Hin. apply Hk. apply list_elem_of_In, in_map_iff in Hin as ([k' v'] & E & Hin).
  simpl in E. subst k'. apply filter_In in Hin as [Hin _].
  apply list_elem_of_In, in_map_iff. by exists (k, v').
Qed.

Lemma extra_of_get (d : pydict) (k : string) :
  dict_get (extra_of d) k = if is_builtin k then None else dict_get d k.
Proof.
  unfold extra_of. induction d as [|[k' v'] d IH]; cbn [List.filter fst].
  - by destruct (is_builtin k).
  - destruct (is_builtin k') eqn:B'; cbn [negb dict_get].
    + rewrite IH. destruct (String.eqb k k') eqn:E; [|done].
      apply String.eqb_eq in E. subst k'. by rewrite B'.
    + destruct (String.eqb k k') eqn:E; [|exact IH].
      apply String.eqb_eq in E. subst k'. by rewrite B'.
Qed.

(** C5.  For a record whose attribute dict is [d], [extra_from_record]
    returns a dict at a location that did not exist before (so it is not
    the record's own dict and no object that existed is changed by
    creating it), holding exactly the entries of [d] whose key is not in
    [BUILTIN_ATTRS]; it is empty when every key of [d] is built in; and
    writing to the returned dict afterwards leaves the record's dict as
    it was. *)
Theorem extra_from_record_fresh (h : heap) (rec : loc) (d : pydict) :
  get_dict h rec = Some d ->
  exists h' extra e,
    extra_from_record h rec = Ok (h', extra)
    /\ h !! extra = None
    /\ extra <> rec
    /\ (forall l o, h !! l = Some o -> h' !! l = Some o)
    /\ get_dict h' extra = Some e
    /\ (forall k v, (k, v) ∈ e <-> (k, v) ∈ d /\ k ∉ BUILTIN_ATTRS)
    /\ ((forall k, k ∈ keys d -> k ∈ BUILTIN_ATTRS) -> e = [])
    /\ (forall k v h'', setitem h' extra k v = Ok h'' -> get_dict h'' rec = Some d).
Proof.
  intros Hd. exists (h ++ [HDict (extra_of d)]), (List.length h), (extra_of d).
  assert (Hrec : h !! rec = Some (HDict d)) by (by apply get_dict_lookup).
  assert (Hlt : rec < List.length h) by (by apply lookup_lt_Some in Hrec).
  assert (Hnew : get_dict (h ++ [HDict (extra_of d)]) (List.length h)
                 = Some (extra_of d)).
  { apply get_dict_lookup. rewrite lookup_app_r by lia.
    by rewrite Nat.sub_diag. }
  split; [unfold extra_from_record; by rewrite Hd|].
  split; [by apply lookup_ge_None_2|].
  split; [lia|].
  split; [intros l o Hl; by apply lookup_app_l_Some|].
  split; [done|].
  split; [apply extra_of_spec|].
  split; [apply extra_of_builtin_only|].
  intros k v h''. unfold setitem. rewrite Hnew. intros [= <-].
  rewrite get_dict_insert_ne by lia.
  apply get_dict_lookup. by apply lookup_app_l_Some.
Qed.

Lemma extra_from_record_fresh_witness :
  exists h' extra e,
    extra_from_record alice_heap 0 = Ok (h', extra)
    /\ alice_heap !! extra = None
    /\ extra <> 0
    /\ (forall l o, alice_heap !! l = Some o -> h' !! l = Some o)
    /\ get_dict h' extra = Some e
    /\ (forall k v,
          (k, v) ∈ e <->
          (k, v) ∈ log_record "app" "INFO" 20 (PStr "user %s logged in") (PRef 1) PNone
                     [("request_id", PStr "abc123")]
          /\ k ∉ BUILTIN_ATTRS)
    /\ ((forall k,
           k ∈ keys (log_record "app" "INFO" 20 (PStr "user %s logged in") (PRef 1) PNone
                       [("request_id", PStr "abc123")]) ->
           k ∈ BUILTIN_ATTRS) -> e = [])
    /\ (forall k v h'',
          setitem h' extra k v = Ok h'' ->
          get_dict h'' 0
          = Some (log_record "app" "INFO" 20 (PStr "user %s logged in") (PRef 1) PNone
                    [("request_id", PStr "abc123")])).
Proof.
  apply (extra_from_record_fresh alice_heap 0). reflexivity.
Defined.

Example extra_of_alice :
  extra_from_record alice_heap 0
  = Ok (alice_heap ++ [HDict [("request_id", PStr "abc123")]], 2).
Proof. reflexivity. Qed.

Example extra_of_plain_record :
  extra_of (log_record "app" "INFO" 20 (PStr "hello") PNone PNone []) = [].
Proof. reflexivity. Qed.

(** ** [to_json] and [format], for any host and any JSON library *)

Section FormatterFacts.

Variable py_str : heap -> pyval -> result string.
Variable getMessage : heap -> loc -> result string.
Variable formatException : heap -> pyval -> result string.
Variable dumps :
  heap -> option (heap -> pyval -> result pyval) -> pyval -> result string.

Local Abbreviation coercion := (_json_serializable py_str).
Local Abbreviation to_json_h := (to_json py_str dumps).
Local Abbreviation format_try_h :=
  (format_try py_str getMessage formatException dumps).
Local Abbreviation format_with_h :=
  (format_with py_str getMessage formatException dumps).

Lemma to_json_outcome (h : heap) (record : pyval) (s : string) :
  to_json_h h record = Ok s ->
  dumps h (Some coercion) record = Ok s
  \/ dumps h None record = Ok s
  \/ s = "{}".
Proof.
  unfold to_json.
  destruct (dumps h (Some coercion) record) as [s1|e1]; [intros [= <-]; by left|].
  destruct (is_encode_error (exn_cls e1)); [|done].
  destruct (dumps h None record) as [s2|e2]; [intros [= <-]; right; by left|].
  destruct (is_encode_error (exn_cls e2)); [|done].
  intros [= <-]. right; by right.
Qed.

(** C4.  [to_json] returns what [dumps] with [default=_json_serializable]
    returns when that succeeds; when that raises [TypeError],
    [ValueError] or [OverflowError] it returns what [dumps] without
    [default] returns, and the text of the empty object when this second
    call raises one of the three as well.  [_json_serializable] returns
    the [__dict__] of an object that has one and [str] of any other. *)
Theorem to_json_two_tier (h : heap) (record : pyval) :
  (forall s, dumps h (Some coercion) record = Ok s -> to_json_h h record = Ok s)
  /\ (forall e,
        dumps h (Some coercion) record = Raise e ->
        is_encode_error (exn_cls e) = true ->
        (forall s, dumps h None record = Ok s -> to_json_h h record = Ok s)
        /\ (forall e',
              dumps h None record = Raise e' ->
              is_encode_error (exn_cls e') = true ->
              to_json_h h record = Ok "{}"))
  /\ (forall l cls attrs text,
        h !! l = Some (HInst cls (Some attrs) text) ->
        coercion h (PRef l) = Ok (PRef attrs))
  /\ (forall obj,
        has_dict h obj = false ->
        coercion h obj = bind (py_str h obj) (fun s => Ok (PStr s))).
Proof.
  unfold to_json. split; [|split; [|split]].
  - intros s ->. done.
  - intros e He Henc. rewrite He, Henc. split.
    + intros s ->. done.
    + intros e' -> ->. done.
  - intros l cls attrs text Hl. simpl. by rewrite Hl.
  - intros obj Hobj. destruct obj; try done. simpl in *.
    destruct (h !! l) as [[| | |cls [attrs|] text]|]; done.
Qed.

(** The text [format_with] gives is one that [dumps] returned for the
    record, or the empty object, or the fallback record carrying the text
    of the exception that was raised; and an exception raised by message
    extraction, extra-field extraction, record assembly, the mutation
    hook or serialization gives the fallback record. *)
Lemma format_with_outcome
    (hook : heap -> loc -> result (heap * option loc)) (h : heap) (record : loc) :
  let s := format_with_h hook h record in
  ((exists h' default' r, dumps h' default' r = Ok s)
   \/ s = "{}"
   \/ (exists e, format_try_h hook h record = Raise e
                 /\ s = fallback_record (exn_str e)))
  /\ (forall e, getMessage h record = Raise e -> s = fallback_record (exn_str e))
  /\ (forall m e, getMessage h record = Ok m ->
                  extra_from_record h record = Raise e ->
                  s = fallback_record (exn_str e))
  /\ (forall m h1 extra e,
        getMessage h record = Ok m ->
        extra_from_record h record = Ok (h1, extra) ->
        json_record formatException h1 m extra record = Raise e ->
        s = fallback_record (exn_str e))
  /\ (forall m h1 extra h2 jr e,
        getMessage h record = Ok m ->
        extra_from_record h record = Ok (h1, extra) ->
        json_record formatException h1 m extra record = Ok (h2, jr) ->
        hook h2 jr = Raise e ->
        s = fallback_record (exn_str e))
  /\ (forall m h1 extra h2 jr h3 r e,
        getMessage h record = Ok m ->
        extra_from_record h record = Ok (h1, extra) ->
        json_record formatException h1 m extra record = Ok (h2, jr) ->
        hook h2 jr = Ok (h3, r) ->
        to_json_h h3 (PRef (match r with Some new => new | None => jr end)) = Raise e ->
        s = fallback_record (exn_str e)).
Proof.
  intros s. subst s. unfold format_with, format_try.
  split.
  { destruct (getMessage h record) as [m|e]; cbn [bind fst snd]; [|right; right; by exists e].
    destruct (extra_from_record h record) as [[h1 extra]|e]; cbn [bind fst snd];
      [|right; right; by exists e].
    destruct (json_record formatException h1 m extra record) as [[h2 jr]|e]; cbn [bind fst snd];
      [|right; right; by exists e].
    destruct (hook h2 jr) as [[h3 r]|e]; cbn [bind fst snd]; [|right; right; by exists e].
    match goal with
    | |- context [to_json py_str dumps ?hh ?rr] =>
        destruct (to_json py_str dumps hh rr) as [s|e] eqn:E
    end; [|right; right; by exists e].
    apply to_json_outcome in E as [E|[E|E]]; [left; eauto | left; eauto | by right; left]. }
  repeat split.
  - intros e ->. done.
  - intros m e -> ->. done.
  - intros m h1 extra e -> ->. cbn [bind fst snd]. intros ->. done.
  - intros m h1 extra h2 jr e -> ->. cbn [bind fst snd]. intros ->.
    cbn [bind fst snd]. intros ->. done.
  - intros m h1 extra h2 jr h3 r e -> ->. cbn [bind fst snd]. intros ->.
    cbn [bind fst snd]. intros ->. cbn [bind fst snd].
    intros Hr. destruct r; rewrite Hr; done.
Qed.

(** C10.  When the mutation hook changes the record in place and
    returns [None], [format] serializes the record the hook was given,
    as the hook left it: the argument of [to_json] is the location
    [json_record] returned, read in the heap the hook produced. *)
Theorem format_uses_mutated_input
    (hook : heap -> loc -> result (heap * option loc))
    (h h1 h2 h3 : heap) (record extra jr : loc) (m : string) :
  getMessage h record = Ok m ->
  extra_from_record h record = Ok (h1, extra) ->
  json_record formatException h1 m extra record = Ok (h2, jr) ->
  hook h2 jr = Ok (h3, None) ->
  format_try_h hook h record = to_json_h h3 (PRef jr)
  /\ format_with_h hook h record
     = match to_json_h h3 (PRef jr) with
       | Ok s => s
       | Raise e => fallback_record (exn_str e)
       end.
Proof.
  intros Hm He Hj Hh.
  unfold format_with, format_try.
  rewrite Hm. cbn [bind]. rewrite He. cbn [bind fst snd]. rewrite Hj.
  cbn [bind fst snd]. rewrite Hh. cbn [bind fst snd]. done.
Qed.

End FormatterFacts.

Lemma to_json_two_tier_witness :
  to_json CPython.py_str Json.dumps point_heap (PRef 0)
  = Ok ("{" +:+ quoted "p" +:+ ": {" +:+ quoted "x" +:+ ": 1, "
        +:+ quoted "y" +:+ ": 2}}")
  /\ to_json CPython.py_str dumps_without_default point_heap (PRef 2)
     = Ok ("{" +:+ quoted "x" +:+ ": 1, " +:+ quoted "y" +:+ ": 2}")
  /\ to_json CPython.py_str Json.dumps loop_heap (PRef 0) = Ok "{}".
Proof.
  split; [|split].
  - apply (proj1 (to_json_two_tier CPython.py_str Json.dumps point_heap (PRef 0))).
    vm_compute. reflexivity.
  - apply (proj1 (proj1 (proj2 (to_json_two_tier CPython.py_str dumps_without_default
                                  point_heap (PRef 2)))
                    (mk_exn TypeError
                       "dumps() got an unexpected keyword argument 'default'")
                    eq_refl eq_refl)).
    vm_compute. reflexivity.
  - apply (proj2 (proj1 (proj2 (to_json_two_tier CPython.py_str Json.dumps
                                  loop_heap (PRef 0)))
                    (mk_exn ValueError "Circular reference detected")
                    ltac:(vm_compute; reflexivity) eq_refl)
             (mk_exn ValueError "Circular reference detected")).
    + vm_compute. reflexivity.
    + reflexivity.
Defined.

Lemma format_uses_mutated_input_witness :
  format_with CPython.py_str CPython.getMessage CPython.formatException Json.dumps
    stamp_hook alice_levelname_heap 0
  = "{" +:+ quoted "request_id" +:+ ": " +:+ quoted "abc123" +:+ ", "
    +:+ quoted "levelname_" +:+ ": " +:+ quoted "INFO" +:+ ", "
    +:+ quoted "message" +:+ ": " +:+ quoted "user alice logged in" +:+ ", "
    +:+ quoted "level" +:+ ": " +:+ quoted "INFO" +:+ ", "
    +:+ quoted "name" +:+ ": " +:+ quoted "app" +:+ ", "
    +:+ quoted "filename" +:+ ": " +:+ quoted "views.py" +:+ ", "
    +:+ quoted "func_name" +:+ ": " +:+ quoted "login" +:+ ", "
    +:+ quoted "lineno" +:+ ": 42, "
    +:+ quoted "module" +:+ ": " +:+ quoted "views" +:+ ", "
    +:+ quoted "pathname" +:+ ": " +:+ quoted "/srv/app/views.py" +:+ ", "
    +:+ quoted "stamped" +:+ ": true}".
Proof.
  pose proof (fun h1 h2 h3 =>
                format_uses_mutated_input CPython.py_str CPython.getMessage
                  CPython.formatException Json.dumps stamp_hook
                  alice_levelname_heap h1 h2 h3 0) as Huse.
  edestruct Huse as [_ Hfmt];
    [reflexivity | reflexivity | reflexivity | reflexivity |].
  rewrite Hfmt. vm_compute. reflexivity.
Defined.

(** ** [json_record] *)

Lemma write_all_other (fs : list (string * pyval)) (e : pydict) (k : string) :
  k ∉ map fst fs -> dict_get (write_all e fs) k = dict_get e k.
Proof.
  revert e. induction fs as [|[k' v'] fs IH]; intros e Hk; [done|].
  cbn [map fst] in Hk. apply not_elem_of_cons in Hk as [Hne Hk].
  cbn [write_all]. rewrite IH by done. by apply dict_get_set_ne.
Qed.

Lemma write_all_written (fs : list (string * pyval)) (e : pydict) (k : string) (v : pyval) :
  NoDup (map fst fs) -> (k, v) ∈ fs -> dict_get (write_all e fs) k = Some v.
Proof.
  revert e. induction fs as [|[k' v'] fs IH]; intros e Hnd Hin.
  - by apply elem_of_nil in Hin.
  - cbn [map fst] in Hnd. apply NoDup_cons in Hnd as [Hk' Hnd].
    cbn [write_all]. apply elem_of_cons in Hin as [[= -> ->]|Hin].
    + rewrite write_all_other by done. apply dict_get_set_eq.
    + by apply IH.
Qed.


Lemma write_all_app (fs gs : list (string * pyval)) (e : pydict) :
  write_all e (fs ++ gs) = write_all (write_all e fs) gs.
Proof.
  revert e. induction fs as [|[k v] fs IH]; intros e; [done|].
  cbn [app write_all]. apply IH.
Qed.

Lemma setitem_insert (h : heap) (l : loc) (e0 e : pydict) (k : string) (v : pyval) :
  get_dict h l = Some e0 ->
  setitem (<[l := HDict e]> h) l k v = Ok (<[l := HDict (dict_set e k v)]> h).
Proof.
  intros Hl. unfold setitem. rewrite (get_dict_insert_eq h l e0 e Hl).
  by rewrite list_insert_insert_eq.
Qed.

Lemma getattr_insert (h : heap) (extra rec : loc) (e d : pydict) (a : string) (v : pyval) :
  extra <> rec -> get_dict h rec = Some d -> dict_get d a = Some v ->
  getattr (<[extra := HDict e]> h) rec a = Ok v.
Proof.
  intros Hne Hd Ha. unfold getattr. rewrite get_dict_insert_ne by done.
  by rewrite Hd, Ha.
Qed.

Section Assembly.

Variable formatException : heap -> pyval -> result string.
Variables (h : heap) (message : string) (extra rec : loc) (d e : pydict).
Variables (levelname_ name exc_info filename funcName lineno module pathname : pyval).
Variable exc : option string.

Hypothesis Hrec : get_dict h rec = Some d.
Hypothesis Hextra : get_dict h extra = Some e.
Hypothesis Hdistinct : extra <> rec.
Hypothesis Hlevelname_ : dict_get d "levelname_" = Some levelname_.
Hypothesis Hname : dict_get d "name" = Some name.
Hypothesis Hexc_info : dict_get d "exc_info" = Some exc_info.
Hypothesis Hfilename : dict_get d "filename" = Some filename.
Hypothesis HfuncName : dict_get d "funcName" = Some funcName.
Hypothesis Hlineno : dict_get d "lineno" = Some lineno.
Hypothesis Hmodule : dict_get d "module" = Some module.
Hypothesis Hpathname : dict_get d "pathname" = Some pathname.
Hypothesis Hexc :
  exc_text formatException
    (<[extra := HDict (write_all e [("message", PStr message);
                                    ("level", levelname_); ("name", name)])]> h)
    exc_info
  = Ok exc.

Local Abbreviation fields :=
  (fixed_fields message levelname_ name exc filename funcName lineno module pathname).

Lemma json_record_from (e0 : pydict) :
  get_dict h extra = Some e0 ->
  json_record formatException (<[extra := HDict e]> h) message extra rec
  = Ok (<[extra := HDict (write_all e fields)]> h, extra).
Proof using Hrec Hdistinct Hlevelname_ Hname Hexc_info Hfilename HfuncName
  Hlineno Hmodule Hpathname Hexc.
  intros He0. unfold json_record.
  rewrite (setitem_insert h extra e0) by done. cbn [bind].
  rewrite (getattr_insert h extra rec _ d "levelname_" levelname_) by done. cbn [bind].
  rewrite (setitem_insert h extra e0) by done. cbn [bind].
  rewrite (getattr_insert h extra rec _ d "name" name) by done. cbn [bind].
  rewrite (setitem_insert h extra e0) by done. cbn [bind].
  rewrite (getattr_insert h extra rec _ d "exc_info" exc_info) by done. cbn [bind].
  unfold exc_text in Hexc. cbn [write_all] in Hexc.
  assert (Hrest : forall e1,
    bind (Ok (<[extra := HDict e1]> h)) (fun h0 =>
      filename <- getattr h0 rec "filename" ;;
      h1 <- setitem h0 extra "filename" filename ;;
      funcName <- getattr h1 rec "funcName" ;;
      h2 <- setitem h1 extra "func_name" funcName ;;
      lineno <- getattr h2 rec "lineno" ;;
      h3 <- setitem h2 extra "lineno" lineno ;;
      module <- getattr h3 rec "module" ;;
      h4 <- setitem h3 extra "module" module ;;
      pathname <- getattr h4 rec "pathname" ;;
      h5 <- setitem h4 extra "pathname" pathname ;;
      Ok (h5, extra))
    = Ok (<[extra := HDict (write_all e1
             [("filename", filename); ("func_name", funcName); ("lineno", lineno);
              ("module", module); ("pathname", pathname)])]> h, extra)).
  { intros e1. cbn [bind].
    rewrite (getattr_insert h extra rec _ d "filename" filename) by done. cbn [bind].
    rewrite (setitem_insert h extra e0) by done. cbn [bind].
    rewrite (getattr_insert h extra rec _ d "funcName" funcName) by done. cbn [bind].
    rewrite (setitem_insert h extra e0) by done. cbn [bind].
    rewrite (getattr_insert h extra rec _ d "lineno" lineno) by done. cbn [bind].
    rewrite (setitem_insert h extra e0) by done. cbn [bind].
    rewrite (getattr_insert h extra rec _ d "module" module) by done. cbn [bind].
    rewrite (setitem_insert h extra e0) by done. cbn [bind].
    rewrite (getattr_insert h extra rec _ d "pathname" pathname) by done. cbn [bind].
    rewrite (setitem_insert h extra e0) by done. cbn [bind]. done. }
  unfold fixed_fields. rewrite !write_all_app. cbn [write_all].
  destruct (truthy _ exc_info).
  - destruct (formatException _ exc_info) as [t|err]; [|done].
    cbn [bind] in Hexc. injection Hexc as <-.
    cbn [bind]. rewrite (setitem_insert h extra e0) by done.
    rewrite Hrest. done.
  - injection Hexc as <-. rewrite Hrest. done.
Qed.

Lemma json_record_assembles :
  json_record formatException h message extra rec
  = Ok (<[extra := HDict (write_all e fields)]> h, extra).
Proof using Hrec Hextra Hdistinct Hlevelname_ Hname Hexc_info Hfilename HfuncName
  Hlineno Hmodule Hpathname Hexc.
  rewrite <- (json_record_from e Hextra).
  rewrite list_insert_id; [done|]. by apply get_dict_lookup.
Qed.

End Assembly.



Example json_record_collide :
  exists h',
    json_record CPython.formatException collide_heap "failed" 1 0 = Ok (h', 1)
    /\ get_dict h' 1
       = Some [("level", PStr "ERROR"); ("exc_info", PStr boom_text);
               ("user", PStr "alice"); ("message", PStr "failed");
               ("name", PStr "app"); ("filename", PStr "views.py");
               ("func_name", PStr "login"); ("lineno", PInt 42);
               ("module", PStr "views"); ("pathname", PStr "/srv/app/views.py")].
Proof. eexists. split; reflexivity. Qed.

(** ** [format] on records as [logging] makes them *)

(** A record that has no attribute [levelname_] (none that [logging]
    creates has one) is never assembled: whatever the hook and the JSON
    library, [format] returns the fallback record for the
    [AttributeError]. *)
Lemma format_without_levelname_
    (py_str : heap -> pyval -> result string)
    (getMessage : heap -> loc -> result string)
    (formatException : heap -> pyval -> result string)
    (dumps : heap -> option (heap -> pyval -> result pyval) -> pyval -> result string)
    (hook : heap -> loc -> result (heap * option loc))
    (h : heap) (record : loc) (d : pydict) (m : string) :
  get_dict h record = Some d ->
  dict_get d "levelname_" = None ->
  getMessage h record = Ok m ->
  format_with py_str getMessage formatException dumps hook h record
  = fallback_record no_levelname_.
Proof.
  intros Hd Hl Hm. unfold format_with, format_try.
  rewrite Hm. cbn [bind]. unfold extra_from_record. rewrite Hd.
  cbn [bind alloc fst snd].
  assert (Hrec : h !! record = Some (HDict d)) by (by apply get_dict_lookup).
  assert (Hlt : record < List.length h) by (by apply lookup_lt_Some in Hrec).
  assert (Hnew : get_dict (h ++ [HDict (extra_of d)]) (List.length h)
                 = Some (extra_of d)).
  { apply get_dict_lookup. rewrite lookup_app_r by lia. by rewrite Nat.sub_diag. }
  unfold json_record, setitem at 1. rewrite Hnew. cbn [bind].
  unfold getattr at 1. rewrite get_dict_insert_ne by lia.
  replace (get_dict (h ++ [HDict (extra_of d)]) record) with (Some d)
    by (symmetry; apply get_dict_lookup; by apply lookup_app_l_Some).
  rewrite Hl. reflexivity.
Qed.

(** C2 (defect in the code).  For the record of
    [logger.info("user %s logged in", "alice", extra={"request_id":
    "abc123"})], [format] returns the fallback record: [level] is
    [ERROR], [message] is the text of the [AttributeError] for
    [levelname_], and [request_id], [filename], [func_name], [lineno],
    [module] and [pathname] are missing. *)
Theorem format_alice_is_fallback :
  format_cpython alice_heap 0 = fallback_record no_levelname_
  /\ JsonParse.field (format_cpython alice_heap 0) "message"
     = Some (JsonParse.JStr no_levelname_)
  /\ JsonParse.field (format_cpython alice_heap 0) "level"
     = Some (JsonParse.JStr "ERROR")
  /\ JsonParse.field (format_cpython alice_heap 0) "request_id" = None
  /\ JsonParse.field (format_cpython alice_heap 0) "filename" = None
  /\ JsonParse.field (format_cpython alice_heap 0) "func_name" = None
  /\ JsonParse.field (format_cpython alice_heap 0) "lineno" = None
  /\ JsonParse.field (format_cpython alice_heap 0) "module" = None
  /\ JsonParse.field (format_cpython alice_heap 0) "pathname" = None.
Proof. repeat split; vm_compute; reflexivity. Qed.

(** With the attribute [levelname_] on the record the same call gives the
    record the specification describes. *)
Example format_alice_levelname_ :
  JsonParse.loads (format_cpython alice_levelname_heap 0)
  = Some (JsonParse.JObj
            [("request_id", JsonParse.JStr "abc123");
             ("levelname_", JsonParse.JStr "INFO");
             ("message", JsonParse.JStr "user alice logged in");
             ("level", JsonParse.JStr "INFO");
             ("name", JsonParse.JStr "app");
             ("filename", JsonParse.JStr "views.py");
             ("func_name", JsonParse.JStr "login");
             ("lineno", JsonParse.JNum "42");
             ("module", JsonParse.JStr "views");
             ("pathname", JsonParse.JStr "/srv/app/views.py")]).
Proof. vm_compute. reflexivity. Qed.

(** C3 (defect in the code).  For a record with an extra that holds
    itself, [format] returns the fallback record for the [AttributeError],
    not the empty object; and for a record whose message raises
    [KeyError] on a key with a double quote in it, what [format] returns
    is not a JSON text. *)
Theorem format_circular_and_quote :
  format_cpython loop_record_heap 0 = fallback_record no_levelname_
  /\ format_cpython loop_record_heap 0 <> "{}"
  /\ format_cpython key_error_heap 0
     = fallback_record (squote +:+ "a" +:+ dquote +:+ squote)
  /\ JsonParse.loads (format_cpython key_error_heap 0) = None.
Proof.
  split; [vm_compute; reflexivity|].
  split; [vm_compute; discriminate|].
  split; vm_compute; reflexivity.
Qed.

(** With [levelname_] on the record the circular extra gives the empty
    object. *)
Example format_circular_levelname_ :
  format_cpython
    [ HDict (log_record "app" "INFO" 20 (PStr "hello") PNone PNone
               [("data", PRef 1); ("levelname_", PStr "INFO")]);
      HDict [("self", PRef 1)] ] 0
  = "{}".
Proof. vm_compute. reflexivity. Qed.

(** C7 (defect in the code).  For a record that carries exception info,
    what [format] returns is the fallback record, which has no [exc_info]
    key. *)
Theorem format_exception_is_fallback :
  format_cpython boom_heap 0 = fallback_record no_levelname_
  /\ JsonParse.is_object (format_cpython boom_heap 0) = true
  /\ JsonParse.field (format_cpython boom_heap 0) "exc_info" = None.
Proof. repeat split; vm_compute; reflexivity. Qed.

(** With [levelname_] on the record, [exc_info] is the traceback text. *)
Example format_exception_levelname_ :
  JsonParse.field (format_cpython [HDict collide_record] 0) "exc_info"
  = Some (JsonParse.JStr boom_text).
Proof. vm_compute. reflexivity. Qed.

(** The scenario of the specification for a value that exposes a field
    mapping: the instance of [point_heap] is written as its [__dict__]. *)
Example format_point :
  JsonParse.field
    (format_cpython
       [ HDict (log_record "app" "INFO" 20 (PStr "hello") PNone PNone
                  [("p", PRef 1); ("levelname_", PStr "INFO")]);
         HInst "Point" (Some 2) "<Point object>";
         HDict [("x", PInt 1); ("y", PInt 2)] ] 0) "p"
  = Some (JsonParse.JObj [("x", JsonParse.JNum "1"); ("y", JsonParse.JNum "2")]).
Proof. vm_compute. reflexivity. Qed.

(** * Further properties of the module *)

(** ** [to_json] *)

(** X1.  [to_json] never raises [TypeError], [ValueError] or
    [OverflowError]: an exception that leaves it is of another class, and
    it is the one [dumps] raised, in the first call or in the retry. *)
Theorem to_json_raises_only_other_errors
    (py_str : heap -> pyval -> result string)
    (dumps : heap -> option (heap -> pyval -> result pyval) -> pyval -> result string)
    (h : heap) (record : pyval) (e : exn) :
  to_json py_str dumps h record = Raise e ->
  is_encode_error (exn_cls e) = false
  /\ (dumps h (Some (_json_serializable py_str)) record = Raise e
      \/ dumps h None record = Raise e).
Proof.
  unfold to_json.
  destruct (dumps h (Some (_json_serializable py_str)) record) as [s1|e1] eqn:E1;
    [done|].
  destruct (is_encode_error (exn_cls e1)) eqn:C1.
  - destruct (dumps h None record) as [s2|e2] eqn:E2; [done|].
    destruct (is_encode_error (exn_cls e2)) eqn:C2; [done|].
    intros [= <-]. split; [done | by right].
  - intros [= <-]. split; [done | by left].
Qed.

Lemma to_json_raises_only_other_errors_witness :
  is_encode_error
    (exn_cls (mk_exn RecursionError
                "maximum recursion depth exceeded while encoding a JSON object"))
  = false
  /\ (Json.dumps deep_heap (Some (_json_serializable CPython.py_str)) (PRef 0)
      = Raise (mk_exn RecursionError
                 "maximum recursion depth exceeded while encoding a JSON object")
      \/ Json.dumps deep_heap None (PRef 0)
         = Raise (mk_exn RecursionError
                    "maximum recursion depth exceeded while encoding a JSON object")).
Proof.
  apply (to_json_raises_only_other_errors CPython.py_str Json.dumps deep_heap (PRef 0)).
  vm_compute. reflexivity.
Defined.

(** ** [mutate_json_record] *)

(** X2.  [mutate_json_record] is idempotent: on a dict with distinct keys
    it succeeds, and running it again on the result succeeds and leaves
    the heap as the first run left it. *)
Theorem mutate_json_record_idempotent (h : heap) (l : loc) (d : pydict) :
  get_dict h l = Some d ->
  NoDup (keys d) ->
  exists h1,
    mutate_json_record h l = Ok (h1, Some l)
    /\ mutate_json_record h1 l = Ok (h1, Some l).
Proof.
  intros Hd Hnd.
  destruct (mutate_json_record_coerces h l d Hd Hnd) as (d' & Hm & _).
  eexists. split; [exact Hm|].
  by apply (mutate_json_record_twice h _ l d).
Qed.

Lemma mutate_json_record_idempotent_witness :
  exists h1,
    mutate_json_record stamped_heap 0 = Ok (h1, Some 0)
    /\ mutate_json_record h1 0 = Ok (h1, Some 0).
Proof.
  apply (mutate_json_record_idempotent stamped_heap 0
           [("when", PDatetime new_year); ("n", PInt 1)]).
  - reflexivity.
  - apply (@bool_decide_unpack (NoDup ["when"; "n"]) _). vm_compute. exact I.
Defined.

(** X3.  [mutate_json_record] returns the dict it was given and writes to
    no other object: the heap keeps its size and every other location
    holds what it held, so a [datetime] inside a list or a dict that is a
    value of the record is not converted. *)
Theorem mutate_json_record_frame (h h' : heap) (l : loc) (r : option loc) :
  mutate_json_record h l = Ok (h', r) ->
  r = Some l
  /\ List.length h' = List.length h
  /\ (forall l', l' <> l -> h' !! l' = h !! l').
Proof.
  unfold mutate_json_record. destruct (get_dict h l) as [d|]; [|done].
  intros [= <- <-]. split; [done|]. split; [apply length_insert|].
  intros l' Hne. by apply list_lookup_insert_ne.
Qed.

Lemma mutate_json_record_frame_witness :
  Some 0 = Some 0
  /\ List.length
       [ HDict [("when", PStr (isoformat new_year)); ("seen", PRef 1)];
         HList [PDatetime new_year] ]
     = List.length nested_heap
  /\ (forall l', l' <> 0 ->
        [ HDict [("when", PStr (isoformat new_year)); ("seen", PRef 1)];
          HList [PDatetime new_year] ] !! l' = nested_heap !! l').
Proof.
  apply (mutate_json_record_frame nested_heap _ 0 (Some 0)). reflexivity.
Defined.

(** ** [extra_from_record] *)

Lemma extra_of_sublist (d : pydict) : extra_of d `sublist_of` d.
Proof.
  unfold extra_of. induction d as [|[k v] d IH]; cbn [List.filter fst].
  - constructor.
  - destruct (negb (is_builtin k)); by constructor.
Qed.

(** X4.  The dict [extra_from_record] returns lists the extras in the
    order the record has them; looking up a key that is not built in
    gives what the record has under it, looking up a built-in key gives
    nothing; and its keys are distinct when the record's are. *)
Theorem extra_from_record_lookup (h : heap) (rec : loc) (d : pydict) :
  get_dict h rec = Some d ->
  exists h' extra e,
    extra_from_record h rec = Ok (h', extra)
    /\ get_dict h' extra = Some e
    /\ e `sublist_of` d
    /\ (forall k, k ∉ BUILTIN_ATTRS -> dict_get e k = dict_get d k)
    /\ (forall k, k ∈ BUILTIN_ATTRS -> dict_get e k = None)
    /\ (NoDup (keys d) -> NoDup (keys e)).
Proof.
  intros Hd. exists (h ++ [HDict (extra_of d)]), (List.length h), (extra_of d).
  split; [unfold extra_from_record; by rewrite Hd|].
  split.
  { apply get_dict_lookup. rewrite lookup_app_r by lia. by rewrite Nat.sub_diag. }
  split; [apply extra_of_sublist|].
  split; [|split; [|apply extra_of_keys_NoDup]].
  - intros k Hk. rewrite extra_of_get.
    destruct (is_builtin k) eqn:B; [|done]. by apply is_builtin_spec in B.
  - intros k Hk. rewrite extra_of_get. apply is_builtin_spec in Hk. by rewrite Hk.
Qed.

Lemma extra_from_record_lookup_witness :
  exists h' extra e,
    extra_from_record collide_heap 0 = Ok (h', extra)
    /\ get_dict h' extra = Some e
    /\ e `sublist_of` collide_record
    /\ (forall k, k ∉ BUILTIN_ATTRS -> dict_get e k = dict_get collide_record k)
    /\ (forall k, k ∈ BUILTIN_ATTRS -> dict_get e k = None)
    /\ (NoDup (keys collide_record) -> NoDup (keys e)).
Proof.
  apply (extra_from_record_lookup collide_heap 0 collide_record). reflexivity.
Defined.

(** ** [json_record] *)

Lemma same_except_refl (l : loc) (h : heap) : same_except l h h.
Proof. by split. Qed.

Lemma same_except_trans (l : loc) (h1 h2 h3 : heap) :
  same_except l h1 h2 -> same_except l h2 h3 -> same_except l h1 h3.
Proof.
  intros [L1 F1] [L2 F2]. split; [congruence|].
  intros l' Hne. rewrite F2, F1; done.
Qed.

Lemma setitem_same_except (h h' : heap) (l : loc) (k : string) (v : pyval) :
  setitem h l k v = Ok h' -> same_except l h h'.
Proof.
  unfold setitem. destruct (get_dict h l) as [d|]; [|done].
  intros [= <-]. split; [apply length_insert|].
  intros l' Hne. by apply list_lookup_insert_ne.
Qed.

(** X5.  Whatever the record and the extras are, when [json_record]
    returns, it returns the very dict it was given as [extra], and it has
    written to no other object: the heap keeps its size and every other
    location, the record's own dict among them, holds what it held. *)
Theorem json_record_frame
    (formatException : heap -> pyval -> result string)
    (h h' : heap) (message : string) (extra rec jr : loc) :
  json_record formatException h message extra rec = Ok (h', jr) ->
  jr = extra
  /\ List.length h' = List.length h
  /\ (forall l, l <> extra -> h' !! l = h !! l).
Proof.
  intros H. unfold json_record in H.
  repeat match type of H with
         | bind ?m _ = _ =>
             let E := fresh "E" in
             destruct m eqn:E; cbn [bind] in H; [|discriminate H]
         end.
  injection H as <- <-.
  match goal with
  | Hif : (if truthy ?a ?v then _ else _) = Ok ?b |- _ =>
      assert (Hexc : same_except extra a b);
      [ destruct (truthy a v);
        [ destruct (formatException a v) as [t|]; cbn [bind] in Hif;
          [by apply setitem_same_except in Hif | discriminate Hif]
        | injection Hif as <-; apply same_except_refl ]
      | clear Hif ]
  end.
  repeat match goal with
         | Hs : setitem _ _ _ _ = Ok _ |- _ => apply setitem_same_except in Hs
         end.
  match goal with
  | |- _ /\ List.length ?b = _ /\ _ => assert (Hall : same_except extra h b)
  end.
  { repeat (eapply same_except_trans; [eassumption|]). apply same_except_refl. }
  destruct Hall as [Hlen Hframe]. done.
Qed.

Lemma json_record_frame_witness :
  exists h',
    json_record CPython.formatException collide_heap "failed" 1 0 = Ok (h', 1)
    /\ 1 = 1
    /\ List.length h' = List.length collide_heap
    /\ (forall l, l <> 1 -> h' !! l = collide_heap !! l).
Proof.
  eexists. split; [reflexivity|].
  apply (json_record_frame CPython.formatException collide_heap _ "failed" 1 0 1).
  reflexivity.
Defined.

Lemma has_key_set (d : pydict) (k k' : string) (v : pyval) :
  has_key (dict_set d k v) k' = String.eqb k' k || has_key d k'.
Proof.
  unfold has_key. destruct (String.eqb k' k) eqn:E.
  - apply String.eqb_eq in E. subst k'. by rewrite dict_get_set_eq.
  - apply String.eqb_neq in E. by rewrite dict_get_set_ne.
Qed.

Lemma keys_dict_set_has_key (d : pydict) (k : string) (v : pyval) :
  keys (dict_set d k v) = if has_key d k then keys d else keys d ++ [k].
Proof.
  rewrite keys_dict_set. unfold has_key.
  destruct (decide (k ∈ keys d)) as [Hin|Hout].
  - destruct (dict_get d k) eqn:E; [done|]. by apply dict_get_None_keys in E.
  - apply dict_get_None_keys in Hout. by rewrite Hout.
Qed.

Lemma keys_write_all (fs : list (string * pyval)) (e : pydict) :
  NoDup (map fst fs) ->
  keys (write_all e fs)
  = keys e ++ List.filter (fun k => negb (has_key e k)) (map fst fs).
Proof.
  revert e. induction fs as [|[k v] fs IH]; intros e Hnd.
  - cbn [write_all map List.filter]. by rewrite app_nil_r.
  - cbn [map fst] in Hnd. apply NoDup_cons in Hnd as [Hk Hnd].
    cbn [write_all map fst List.filter]. rewrite IH by done.
    rewrite keys_dict_set_has_key.
    assert (Hsame : List.filter (fun k' => negb (has_key (dict_set e k v) k'))
                      (map fst fs)
                    = List.filter (fun k' => negb (has_key e k')) (map fst fs)).
    { apply filter_ext_in. intros k' Hin. rewrite has_key_set.
      destruct (String.eqb k' k) eqn:E; [|done].
      apply String.eqb_eq in E. subst k'. exfalso. apply Hk.
      by apply list_elem_of_In. }
    rewrite Hsame. destruct (has_key e k); cbn [negb]; [done|].
    by rewrite <- app_assoc.
Qed.

(** X6.  When record assembly succeeds, the keys of the assembled record
    are the keys of the extras, in their order, followed by those of
    [message], [level], [name], [exc_info] (with exception info only),
    [filename], [func_name], [lineno], [module], [pathname] that the
    extras did not have, in this order: a key the extras had keeps its
    place. *)
Theorem json_record_key_order
    (formatException : heap -> pyval -> result string)
    (h : heap) (message : string) (extra rec : loc) (d e : pydict)
    (levelname_ name exc_info filename funcName lineno module pathname : pyval)
    (exc : option string) :
  get_dict h rec = Some d ->
  get_dict h extra = Some e ->
  extra <> rec ->
  dict_get d "levelname_" = Some levelname_ ->
  dict_get d "name" = Some name ->
  dict_get d "exc_info" = Some exc_info ->
  dict_get d "filename" = Some filename ->
  dict_get d "funcName" = Some funcName ->
  dict_get d "lineno" = Some lineno ->
  dict_get d "module" = Some module ->
  dict_get d "pathname" = Some pathname ->
  exc_text formatException
    (<[extra := HDict (write_all e [("message", PStr message);
                                    ("level", levelname_); ("name", name)])]> h)
    exc_info = Ok exc ->
  exists h' e',
    json_record formatException h message extra rec = Ok (h', extra)
    /\ get_dict h' extra = Some e'
    /\ keys e'
       = keys e
         ++ List.filter (fun k => negb (has_key e k))
              (["message"; "level"; "name"]
               ++ match exc with Some _ => ["exc_info"] | None => [] end
               ++ ["filename"; "func_name"; "lineno"; "module"; "pathname"]).
Proof.
  intros Hrec Hextra Hne Hl Hn He Hf Hfn Hln Hm Hp Hexc.
  eexists _, _. split; [by eapply json_record_assembles|].
  split; [by apply (get_dict_insert_eq h extra e)|].
  rewrite keys_write_all.
  - unfold fixed_fields. by destruct exc.
  - destruct exc; apply (@bool_decide_unpack _ (NoDup_dec _)); vm_compute; exact I.
Qed.

Lemma json_record_key_order_witness :
  exists h' e',
    json_record CPython.formatException collide_heap "failed" 1 0 = Ok (h', 1)
    /\ get_dict h' 1 = Some e'
    /\ keys e'
       = keys collide_extras
         ++ List.filter (fun k => negb (has_key collide_extras k))
              (["message"; "level"; "name"]
               ++ match Some boom_text with Some _ => ["exc_info"] | None => [] end
               ++ ["filename"; "func_name"; "lineno"; "module"; "pathname"]).
Proof.
  apply (json_record_key_order CPython.formatException collide_heap
           "failed" 1 0 collide_record collide_extras
           (PStr "ERROR") (PStr "app") boom (PStr "views.py") (PStr "login")
           (PInt 42) (PStr "views") (PStr "/srv/app/views.py") (Some boom_text));
    first [reflexivity | lia].
Defined.

Example json_record_collide_keys :
  keys collide_extras
  ++ List.filter (fun k => negb (has_key collide_extras k))
       (["message"; "level"; "name"] ++ ["exc_info"]
        ++ ["filename"; "func_name"; "lineno"; "module"; "pathname"])
  = ["level"; "exc_info"; "user"; "message"; "name"; "filename"; "func_name";
     "lineno"; "module"; "pathname"].
Proof. reflexivity. Qed.

(** ** The steps of [format] together *)

(** X7.  The first steps of [format] on the default hook write only to
    the dict that [extra_from_record] creates: that dict is new, it is the
    one [json_record] and [mutate_json_record] return, and every object
    that existed before, the log record among them, is left as it was. *)
Theorem format_steps_leave_heap
    (formatException : heap -> pyval -> result string)
    (h h1 h2 h3 : heap) (record extra jr : loc) (message : string)
    (r : option loc) :
  extra_from_record h record = Ok (h1, extra) ->
  json_record formatException h1 message extra record = Ok (h2, jr) ->
  mutate_json_record h2 jr = Ok (h3, r) ->
  extra = List.length h
  /\ jr = extra
  /\ r = Some extra
  /\ List.length h3 = S (List.length h)
  /\ (forall l o, h !! l = Some o -> h3 !! l = Some o).
Proof.
  intros He Hj Hm. unfold extra_from_record in He.
  destruct (get_dict h record) as [d|]; [|done]. injection He as <- <-.
  apply json_record_frame in Hj as (-> & Hlen2 & Hframe2).
  apply mutate_json_record_frame in Hm as (-> & Hlen3 & Hframe3).
  split; [done|]. split; [done|]. split; [done|].
  split; [rewrite Hlen3, Hlen2, length_app; simpl; lia|].
  intros l o Hl. assert (l < List.length h) by (by apply lookup_lt_Some in Hl).
  rewrite Hframe3, Hframe2 by lia. by apply lookup_app_l_Some.
Qed.

Lemma format_steps_leave_heap_witness :
  exists h1 h2 h3,
    extra_from_record alice_levelname_heap 0 = Ok (h1, 2)
    /\ json_record CPython.formatException h1 "user alice logged in" 2 0 = Ok (h2, 2)
    /\ mutate_json_record h2 2 = Ok (h3, Some 2)
    /\ 2 = List.length alice_levelname_heap
    /\ 2 = 2
    /\ Some 2 = Some 2
    /\ List.length h3 = S (List.length alice_levelname_heap)
    /\ (forall l o, alice_levelname_heap !! l = Some o -> h3 !! l = Some o).
Proof.
  eexists _, _, _. split; [reflexivity|]. split; [reflexivity|].
  split; [reflexivity|].
  eapply (format_steps_leave_heap CPython.formatException alice_levelname_heap
            _ _ _ 0 2 2 "user alice logged in" (Some 2));
    reflexivity.
Defined.

Lemma insert_last (h : heap) (o o' : hobj) :
  <[List.length h := o']> (h ++ [o]) = h ++ [o'].
Proof.
  rewrite insert_app_r_alt by lia. by rewrite Nat.sub_diag.
Qed.



Example format_assembled_alice :
  map coerce_entry
    (write_all (extra_of alice_levelname_record)
       (fixed_fields "user alice logged in" (PStr "INFO") (PStr "app") None
          (PStr "views.py") (PStr "login") (PInt 42) (PStr "views")
          (PStr "/srv/app/views.py")))
  = [("request_id", PStr "abc123"); ("levelname_", PStr "INFO");
     ("message", PStr "user alice logged in"); ("level", PStr "INFO");
     ("name", PStr "app"); ("filename", PStr "views.py");
     ("func_name", PStr "login"); ("lineno", PInt 42); ("module", PStr "views");
     ("pathname", PStr "/srv/app/views.py")].
Proof. reflexivity. Qed.

Lemma format_without_levelname__witness :
  format_with CPython.py_str CPython.getMessage CPython.formatException Json.dumps
    mutate_json_record alice_heap 0
  = fallback_record no_levelname_.
Proof.
  apply (format_without_levelname_ CPython.py_str CPython.getMessage
           CPython.formatException Json.dumps mutate_json_record alice_heap 0
           (log_record "app" "INFO" 20 (PStr "user %s logged in") (PRef 1) PNone
              [("request_id", PStr "abc123")])
           "user alice logged in");
    reflexivity.
Defined.

(** ** The fallback record as JSON *)










(** ** More on the steps of [format] *)



Lemma assemble_from_record
    (formatException : heap -> pyval -> result string)
    (h : heap) (record : loc) (d : pydict) (message : string)
    (levelname_ name exc_info filename funcName lineno module pathname : pyval)
    (exc : option string) :
  get_dict h record = Some d ->
  dict_get d "levelname_" = Some levelname_ ->
  dict_get d "name" = Some name ->
  dict_get d "exc_info" = Some exc_info ->
  dict_get d "filename" = Some filename ->
  dict_get d "funcName" = Some funcName ->
  dict_get d "lineno" = Some lineno ->
  dict_get d "module" = Some module ->
  dict_get d "pathname" = Some pathname ->
  exc_text formatException
    (h ++ [HDict (write_all (extra_of d)
                    [("message", PStr message); ("level", levelname_);
                     ("name", name)])])
    exc_info = Ok exc ->
  extra_from_record h record = Ok (h ++ [HDict (extra_of d)], List.length h)
  /\ json_record formatException (h ++ [HDict (extra_of d)]) message
       (List.length h) record
     = Ok (h ++ [HDict (write_all (extra_of d)
                          (fixed_fields message levelname_ name exc filename
                             funcName lineno module pathname))],
           List.length h).
Proof.
  intros Hd Hl Hn He Hf Hfn Hln Hmo Hp Hexc.
  assert (Hrec : h !! record = Some (HDict d)) by (by apply get_dict_lookup).
  assert (Hlt : record < List.length h) by (by apply lookup_lt_Some in Hrec).
  split; [unfold extra_from_record; by rewrite Hd|].
  pose proof (json_record_assembles formatException (h ++ [HDict (extra_of d)])
                message (List.length h) record d (extra_of d) levelname_ name
                exc_info filename funcName lineno module pathname exc) as Hj.
  rewrite !insert_last in Hj. apply Hj; try done; try lia.
  - apply get_dict_lookup. by apply lookup_app_l_Some.
  - apply get_dict_lookup. rewrite lookup_app_r by lia. by rewrite Nat.sub_diag.
Qed.

(** X12.  What the record assembled from a log record holds, when
    assembly succeeds: under [exc_info] the formatted exception if the
    record carries exception info and nothing otherwise; under a key that
    is not built in and is not [level] or [func_name], what the log
    record has under it; and nothing under a built-in key other than the
    fixed fields, so that [levelname], [msg], [args], [created] or
    [thread] never reach the output. *)
Theorem assembled_record_contents
    (formatException : heap -> pyval -> result string)
    (h : heap) (record : loc) (d : pydict) (message : string)
    (levelname_ name exc_info filename funcName lineno module pathname : pyval)
    (exc : option string) :
  get_dict h record = Some d ->
  dict_get d "levelname_" = Some levelname_ ->
  dict_get d "name" = Some name ->
  dict_get d "exc_info" = Some exc_info ->
  dict_get d "filename" = Some filename ->
  dict_get d "funcName" = Some funcName ->
  dict_get d "lineno" = Some lineno ->
  dict_get d "module" = Some module ->
  dict_get d "pathname" = Some pathname ->
  exc_text formatException
    (h ++ [HDict (write_all (extra_of d)
                    [("message", PStr message); ("level", levelname_);
                     ("name", name)])])
    exc_info = Ok exc ->
  exists h1 h2 extra e,
    extra_from_record h record = Ok (h1, extra)
    /\ json_record formatException h1 message extra record = Ok (h2, extra)
    /\ get_dict h2 extra = Some e
    /\ dict_get e "exc_info" = option_map PStr exc
    /\ (forall k, k ∉ BUILTIN_ATTRS -> k <> "level" -> k <> "func_name" ->
                  dict_get e k = dict_get d k)
    /\ (forall k, k ∈ BUILTIN_ATTRS ->
                  k ∉ ["message"; "name"; "exc_info"; "filename"; "lineno";
                       "module"; "pathname"] ->
                  dict_get e k = None).
Proof.
  intros Hd Hl Hn He Hf Hfn Hln Hmo Hp Hexc.
  destruct (assemble_from_record formatException h record d message levelname_ name
              exc_info filename funcName lineno module pathname exc)
    as [Hextra Hjson]; try done.
  eexists _, _, _, _. split; [exact Hextra|]. split; [exact Hjson|].
  split.
  { apply get_dict_lookup. rewrite lookup_app_r by lia. by rewrite Nat.sub_diag. }
  split; [|split].
  - destruct exc as [t|]; cbn [option_map].
    + apply write_all_written.
      * apply (@bool_decide_unpack _ (NoDup_dec _)). vm_compute. exact I.
      * unfold fixed_fields. cbn [app]. do 3 apply list_elem_of_further.
        apply list_elem_of_here.
    + rewrite write_all_other.
      * rewrite extra_of_get. reflexivity.
      * unfold fixed_fields. cbn [map fst app].
        repeat (apply not_elem_of_cons; split; [done|]). apply not_elem_of_nil.
  - intros k Hk Hlevel Hfunc. rewrite write_all_other.
    + rewrite extra_of_get. destruct (is_builtin k) eqn:B; [|done].
      by apply is_builtin_spec in B.
    + intros Hin. apply Hk.
      unfold fixed_fields in Hin. destruct exc; cbn [map fst app] in Hin;
        repeat (apply elem_of_cons in Hin as [->|Hin];
                [first [done | apply is_builtin_spec; reflexivity]|]);
        by apply elem_of_nil in Hin.
  - intros k Hk Hfixed. rewrite write_all_other.
    + rewrite extra_of_get. apply is_builtin_spec in Hk. by rewrite Hk.
    + intros Hin. unfold fixed_fields in Hin.
      destruct exc; cbn [map fst app] in Hin;
        repeat (apply elem_of_cons in Hin as [->|Hin];
                [first [ by (apply Hfixed;
                             repeat first [ apply list_elem_of_here
                                          | apply list_elem_of_further ])
                       | by (apply is_builtin_spec in Hk; vm_compute in Hk) ]|]);
        by apply elem_of_nil in Hin.
Qed.

Lemma assembled_record_contents_witness :
  exists h1 h2 extra e,
    extra_from_record [HDict collide_record] 0 = Ok (h1, extra)
    /\ json_record CPython.formatException h1 "failed" extra 0 = Ok (h2, extra)
    /\ get_dict h2 extra = Some e
    /\ dict_get e "exc_info" = option_map PStr (Some boom_text)
    /\ (forall k, k ∉ BUILTIN_ATTRS -> k <> "level" -> k <> "func_name" ->
                  dict_get e k = dict_get collide_record k)
    /\ (forall k, k ∈ BUILTIN_ATTRS ->
                  k ∉ ["message"; "name"; "exc_info"; "filename"; "lineno";
                       "module"; "pathname"] ->
                  dict_get e k = None).
Proof.
  apply (assembled_record_contents CPython.formatException [HDict collide_record] 0
           collide_record "failed" (PStr "ERROR") (PStr "app") boom (PStr "views.py")
           (PStr "login") (PInt 42) (PStr "views") (PStr "/srv/app/views.py")
           (Some boom_text));
    reflexivity.
Defined.

(** ** The [except] branch of [format] *)

(** [format_with] is what [format] returns whenever the exception raised
    in the [try] block, if any, is an instance of [Exception] whose
    [__str__] returns. *)
Lemma format_result_with
    (py_str : heap -> pyval -> result string)
    (getMessage : heap -> loc -> result string)
    (formatException : heap -> pyval -> result string)
    (dumps : heap -> option (heap -> pyval -> result pyval) -> pyval -> result string)
    (hook : heap -> loc -> result (heap * option loc))
    (h : heap) (record : loc) :
  (forall e,
     format_try py_str getMessage formatException dumps hook h record = Raise e ->
     is_exception (exn_cls e) = true /\ exn_str_raises e = None) ->
  format_result py_str getMessage formatException dumps hook h record
  = Ok (format_with py_str getMessage formatException dumps hook h record).
Proof.
  intros Hprintable. unfold format_result, format_with.
  destruct (format_try py_str getMessage formatException dumps hook h record)
    as [s|e]; [done|].
  destruct (Hprintable e eq_refl) as [Hexc Hstr].
  rewrite Hexc. unfold str_of_exn. by rewrite Hstr.
Qed.

(** An exception raised in the [try] block leaves [format] when it is not
    an instance of [Exception], and what [str(e)] raises leaves it when
    [str(e)] raises. *)
Lemma format_result_raises
    (py_str : heap -> pyval -> result string)
    (getMessage : heap -> loc -> result string)
    (formatException : heap -> pyval -> result string)
    (dumps : heap -> option (heap -> pyval -> result pyval) -> pyval -> result string)
    (hook : heap -> loc -> result (heap * option loc))
    (h : heap) (record : loc) (e : exn) :
  format_try py_str getMessage formatException dumps hook h record = Raise e ->
  (is_exception (exn_cls e) = false ->
   format_result py_str getMessage formatException dumps hook h record = Raise e)
  /\ (forall cls text,
        is_exception (exn_cls e) = true ->
        exn_str_raises e = Some (cls, text) ->
        format_result py_str getMessage formatException dumps hook h record
        = Raise (mk_exn cls text)).
Proof.
  intros Htry. unfold format_result. rewrite Htry. split.
  - intros ->. done.
  - intros cls text -> Hstr. unfold str_of_exn. by rewrite Hstr.
Qed.

(** C1 (defect in the code).  [format] can raise, and what it returns
    need not be JSON.  For a record whose message raises an exception
    whose own [__str__] raises [RuntimeError], the [RuntimeError] leaves
    [format]: [str(e)] in the [except] branch has nothing around it.  For
    a record whose message raises [KeyError] on a key with a double quote
    in it, [format] returns the fallback record with the text put in as
    it is, and that text is not a JSON text. *)
Theorem format_raises_or_returns_non_json :
  format_result CPython.py_str getMessage_unprintable CPython.formatException
    Json.dumps mutate_json_record alice_heap 0
  = Raise (mk_exn (OtherException "RuntimeError") "no text for this error")
  /\ format_result CPython.py_str CPython.getMessage CPython.formatException
       Json.dumps mutate_json_record key_error_heap 0
     = Ok (fallback_record (squote +:+ "a" +:+ dquote +:+ squote))
  /\ JsonParse.loads (fallback_record (squote +:+ "a" +:+ dquote +:+ squote)) = None
  /\ JsonParse.is_object (fallback_record (squote +:+ "a" +:+ dquote +:+ squote))
     = false.
Proof. repeat split; vm_compute; reflexivity. Qed.

(** [KeyboardInterrupt] is not an [Exception]: it passes through. *)
Example format_result_interrupted :
  format_result CPython.py_str getMessage_interrupted CPython.formatException
    Json.dumps mutate_json_record alice_heap 0
  = Raise (mk_exn (BaseExceptionOnly "KeyboardInterrupt") "").
Proof. reflexivity. Qed.

(** On the record of [alice_heap] the two definitions agree. *)
Example format_result_alice :
  format_result CPython.py_str CPython.getMessage CPython.formatException
    Json.dumps mutate_json_record alice_heap 0
  = Ok (format_cpython alice_heap 0).
Proof. vm_compute. reflexivity. Qed.
